(** * matrix-user.js: the Matrix user of the Telegram bridge

    A shallow embedding of [src/matrix-user.js] (class [MatrixUser]) and the
    properties of its synchronisation, search and login operations.

    Conventions of the embedding:
    - an optional JS property ([undefined] or a value) is an [option];
    - a call that may throw, or an awaited promise that may reject, yields
      an [outcome];
    - the methods of [MatrixUser] run in the monad [M]: they read and write
      the receiver [this], append to the [trace] of calls made to the
      collaborators, and register timer callbacks in [timers];
    - the collaborators ([app], [TelegramPuppet], the portal and Telegram
      user objects, [md5], [string-similarity]) are the fields of the
      record [Collaborators]: their answers depend on their arguments only;
    - a number is the rational that the double is; the operations that
      round are those of [Double]. *)

From Stdlib Require Import List String ZArith QArith Qround Lia Lqa Bool Sorted.
From Stdlib Require Import Permutation.
From Stdlib Require Import SpecFloat PrimFloat FloatOps.
From Stdlib Require Import DecimalString.
Import ListNotations.

Local Open Scope string_scope.
Local Open Scope Z_scope.

(** ** JavaScript values *)

Module Js.

(** Values that reach a [catch]: an instance of [Error] (with its
    [message]), any other object, [null] or [undefined]. An object has an
    optional [toPrintable] method; [to_string] is what [toString()] returns
    for the objects that are no [Error]. *)
Inductive thrown : Type :=
| Error (message : string) (toPrintable : option string)
| Object (toPrintable : option string) (to_string : string)
| Null
| Undefined.

Definition new_Error (message : string) : thrown := Error message None.

Definition is_nullish (v : thrown) : bool :=
  match v with
  | Null | Undefined => true
  | Error _ _ | Object _ _ => false
  end.

(** The [TypeError] thrown by reading a property of [null] or
    [undefined], an instance of [Error]; its message is the one V8
    writes. *)
Definition TypeError_reading (v : thrown) (property : string) : thrown :=
  new_Error ("Cannot read properties of "
             ++ match v with Null => "null" | _ => "undefined" end
             ++ " (reading '" ++ property ++ "')").

Definition instanceof_Error (err : thrown) : bool :=
  match err with
  | Error _ _ => true
  | Object _ _ | Null | Undefined => false
  end.

(** The result of a call: a value, or a thrown value (a rejection, when
    the call is awaited). *)
Inductive outcome (A : Type) : Type :=
| Return (a : A)
| Throw (err : thrown).
Arguments Return {A} a.
Arguments Throw {A} err.

(** Reading the property [name] of a value, for its effect: it throws
    for [null] and [undefined]. *)
Definition get (name : string) (v : thrown) : outcome unit :=
  if is_nullish v then Throw (TypeError_reading v name) else Return tt.

(** [err.toPrintable ? err.toPrintable() : undefined]: what the method
    returns, when there is one. *)
Definition toPrintable (err : thrown) : outcome (option string) :=
  match err with
  | Error _ p => Return p
  | Object p _ => Return p
  | Null | Undefined => Throw (TypeError_reading err "toPrintable")
  end.

(** [err.toString()]; for an [Error], [Error.prototype.toString] with the
    name "Error". *)
Definition toString (err : thrown) : outcome string :=
  match err with
  | Error m _ => Return (if (m =? "")%string then "Error" else "Error: " ++ m)
  | Object _ s => Return s
  | Null | Undefined => Throw (TypeError_reading err "toString")
  end.

(** Truthiness of an optional string property: [undefined] and the empty
    string are falsy. *)
Definition truthy (s : option string) : bool :=
  match s with
  | Some s => negb (s =? "")%string
  | None => false
  end.

(** Truthiness of an optional number: [undefined] and [0] are falsy. *)
Definition truthy_num (n : option Z) : bool :=
  match n with
  | Some n => negb (n =? 0)
  | None => false
  end.

(** [String(n)] of an integer below 10^21 in absolute value, which is
    written with all its digits (from 10^21 on JavaScript writes an
    exponent). *)
Definition string_of_Z (n : Z) : string :=
  NilZero.string_of_int (Z.to_int n).

(** [Array.prototype.join]. *)
Definition join (sep : string) (l : list string) : string :=
  String.concat sep l.

End Js.

Import Js.

(** ** Numbers

    A JavaScript number is a double. A finite double is kept as the
    rational number it is: comparisons, the sign of a difference and
    [Math.max] are those of the rationals, and an operation that rounds is
    the operation on the rationals followed by [Double.round]. *)

Module Double.

Definition prec : Z := 53.
Definition emax : Z := 1024.

Definition of_Z (z : Z) : spec_float :=
  match z with
  | Z0 => S754_zero false
  | Zpos p => S754_finite false p 0
  | Zneg p => S754_finite true p 0
  end.

(** The double nearest to a rational, ties to even: the correctly rounded
    quotient of its numerator by its denominator. *)
Definition of_Q (q : Q) : spec_float :=
  SFdiv prec emax (of_Z (Qnum q)) (S754_finite false (Qden q) 0).

(** The rational that a finite double is. *)
Definition to_Q (x : spec_float) : Q :=
  match x with
  | S754_finite s m e =>
      let v := match e with
               | Z0 => inject_Z (Zpos m)
               | Zpos n => inject_Z (Zpos m * 2 ^ Zpos n)
               | Zneg n => Zpos m # (2 ^ n)
               end in
      if s then (- v)%Q else v
  | _ => 0%Q
  end.

Definition round (q : Q) : Q := to_Q (of_Q q).

(** [a * b] and [a / b] on doubles. *)
Definition mul (a b : Q) : Q := round (a * b).
Definition div (a b : Q) : Q := round (a / b).

End Double.

(** ** The objects that cross the boundary of the class *)

(** A Telegram user object of the bridge (telegram-user.js): the contact
    that [app.getTelegramUser] hands out. *)
Module TelegramUser.
Record t : Type := {
  id : Z;
  firstName : option string;
  lastName : option string;
  username : option string;
  phoneNumber : option string;
}.
End TelegramUser.

(** [new TelegramPeer(type, id)] (telegram-peer.js). *)
Module TelegramPeer.
Record t : Type := { type : string; id : Z }.
End TelegramPeer.

(** What the Telegram API returns. *)
Module Remote.

(** An element of [contacts.users]; its profile fields are read by
    [TelegramUser.updateInfo] only. *)
Record user : Type := {
  user_id : Z;
  first_name : option string;
  last_name : option string;
  user_username : option string;
  phone : option string;
}.

(** The answer to [contacts.getContacts]: [tag] is its [_] property. *)
Record contacts : Type := { contacts_tag : string; users : list user }.

(** An element of [dialogs.chats]: [tag] is its [_] property. *)
Record chat : Type := { chat_tag : string; chat_id : Z; deactivated : bool }.

(** The answer to [messages.getDialogs]. *)
Record dialogs : Type := { chats : list chat }.

(** The answer of [sendCode]. *)
Record sentCode : Type := { phone_code_hash : option string }.

End Remote.

Set Implicit Arguments.

Section Model.

(** *** Collaborators: types *)

(** telegram-puppet.js: the puppet and its serialised form. *)
Variables (TelegramPuppet PuppetData : Type).
(** portal.js *)
Variable Portal : Type.
(** What [signIn] resolves to: the completed login or the request for a
    password. *)
Variable SignInResult : Type.

(** *** The class *)

Record MatrixUser : Type := {
  userID : string;
  whitelisted : bool;
  phoneNumber : option string;
  phoneCodeHash : option string;
  commandStatus : option string;
  puppetData : option PuppetData;
  contacts : list TelegramUser.t;
  _telegramPuppet : option TelegramPuppet;
}.

(** The entry of the database: [{ type, id, data: { ... } }]. *)
Record EntryData : Type := {
  data_phoneNumber : option string;
  data_phoneCodeHash : option string;
  data_contactIDs : option (list Z);
  data_puppet : option PuppetData;
}.

Record Entry : Type := {
  entry_type : string;
  entry_id : string;
  entry_data : EntryData;
}.

(** *** Collaborators: operations

    Each answers from its arguments alone. *)
Record Collaborators : Type := {
  (** telegram-puppet.js *)
  fromSubentry : MatrixUser -> PuppetData -> TelegramPuppet;
  empty_subentry : PuppetData;
  toSubentry : TelegramPuppet -> PuppetData;
  puppet_userID : TelegramPuppet -> option Z;
  client_getContacts : TelegramPuppet -> string -> outcome Remote.contacts;
  client_getDialogs : TelegramPuppet -> outcome Remote.dialogs;
  checkPhone : TelegramPuppet -> string -> outcome string;
  sendCode : TelegramPuppet -> string -> outcome Remote.sentCode;
  signIn : TelegramPuppet -> option string -> option string -> string -> outcome SignInResult;
  logOut : TelegramPuppet -> outcome unit;
  (** app.js *)
  checkWhitelist : string -> bool;
  getTelegramUser : Z -> outcome TelegramUser.t;
  getPortalByPeer : TelegramPeer.t -> outcome Portal;
  putUser : MatrixUser -> outcome unit;
  (** portal.js *)
  Portal_updateInfo : Portal -> TelegramPuppet -> Remote.chat -> outcome bool;
  createMatrixRoom : Portal -> TelegramPuppet -> list string -> outcome unit;
  (** telegram-user.js: the object after the update *)
  TelegramUser_updateInfo :
    TelegramUser.t -> TelegramPuppet -> Remote.user -> bool -> outcome TelegramUser.t;
  getFirstAndLastName : TelegramUser.t -> string;
  (** the md5 package *)
  md5 : string -> string;
  (** the string-similarity package *)
  compareTwoStrings : string -> string -> Q;
}.

(** *** Calls and timers *)

(** What [console.error] is given: the caught value, then its [stack]. *)
Inductive logged : Type :=
| Logged_value (err : thrown)
| Logged_stack (err : thrown).

(** The calls that leave the class, in the order they are made. *)
Inductive event : Type :=
| Call_client (method : string) (hash : option string)
| Call_checkPhone (phone : string)
| Call_sendCode (phone : string)
| Call_signIn (phone hash : option string) (code : string)
| Call_logOut
| Call_getTelegramUser (id : Z)
| Call_TelegramUser_updateInfo (user : TelegramUser.t) (info : Remote.user) (force : bool)
| Call_getPortalByPeer (peer : TelegramPeer.t)
| Call_Portal_updateInfo (portal : Portal) (dialog : Remote.chat)
| Call_createMatrixRoom (portal : Portal) (invite : list string)
| Call_console_error (arg : logged)
| Call_putUser (user : MatrixUser).

(** A callback handed to [setTimeout]: the closure of the [contactIDs]
    setter, with the [list] it captured. *)
Inductive timer : Type :=
| Timer_contactIDs (list : option (list Z)).

Record world : Type := { trace : list event; timers : list timer }.

Record state : Type := { this : MatrixUser; env : world }.

(** *** The monad of the methods *)

Definition M (A : Type) : Type := state -> outcome A * state.

Definition ret {A} (a : A) : M A := fun st => (Return a, st).

Definition throw {A} (err : thrown) : M A := fun st => (Throw err, st).

Definition bind {A B} (m : M A) (k : A -> M B) : M B :=
  fun st =>
    match m st with
    | (Return a, st') => k a st'
    | (Throw err, st') => (Throw err, st')
    end.

(** [try { body } catch (err) { handler }] *)
Definition try_catch {A} (body : M A) (handler : thrown -> M A) : M A :=
  fun st =>
    match body st with
    | (Return a, st') => (Return a, st')
    | (Throw err, st') => handler err st'
    end.

Definition get_this : M MatrixUser := fun st => (Return (this st), st).

Definition set_this (f : MatrixUser -> MatrixUser) : M unit :=
  fun st => (Return tt, {| this := f (this st); env := env st |}).

(** A call to a collaborator: it is recorded, and its outcome is the
    collaborator's. *)
Definition call {A} (ev : event) (result : outcome A) : M A :=
  fun st =>
    (result,
     {| this := this st;
        env := {| trace := trace (env st) ++ [ev]; timers := timers (env st) |} |}).

Definition setTimeout (callback : timer) : M unit :=
  fun st =>
    (Return tt,
     {| this := this st;
        env := {| trace := trace (env st);
                  timers := timers (env st) ++ [callback] |} |}).

Declare Scope js_scope.
Notation "x <- m ;; k" := (bind m (fun x => k))
  (at level 61, m at next level, right associativity) : js_scope.
Notation "m ;; k" := (bind m (fun _ => k))
  (at level 61, right associativity) : js_scope.
Local Open Scope js_scope.

(** [await Promise.all(l.map(f))]: every call is made, then the values
    are awaited; the first rejection is the rejection of the whole. *)
Fixpoint all_outcomes {A} (l : list (outcome A)) : outcome (list A) :=
  match l with
  | [] => Return []
  | Return a :: rest =>
      match all_outcomes rest with
      | Return r => Return (a :: r)
      | Throw err => Throw err
      end
  | Throw err :: _ => Throw err
  end.

Definition Promise_all_map {A B} (l : list A) (ev : A -> event)
    (f : A -> outcome B) : M (list B) :=
  fun st =>
    (all_outcomes (map f l),
     {| this := this st;
        env := {| trace := trace (env st) ++ map ev l;
                  timers := timers (env st) |} |}).

(** Assignments to the fields of [this]. *)
Definition with_phoneNumber (v : option string) (u : MatrixUser) : MatrixUser :=
  {| userID := userID u; whitelisted := whitelisted u; phoneNumber := v;
     phoneCodeHash := phoneCodeHash u; commandStatus := commandStatus u;
     puppetData := puppetData u; contacts := contacts u;
     _telegramPuppet := _telegramPuppet u |}.

Definition with_phoneCodeHash (v : option string) (u : MatrixUser) : MatrixUser :=
  {| userID := userID u; whitelisted := whitelisted u; phoneNumber := phoneNumber u;
     phoneCodeHash := v; commandStatus := commandStatus u;
     puppetData := puppetData u; contacts := contacts u;
     _telegramPuppet := _telegramPuppet u |}.

Definition with_puppetData (v : option PuppetData) (u : MatrixUser) : MatrixUser :=
  {| userID := userID u; whitelisted := whitelisted u; phoneNumber := phoneNumber u;
     phoneCodeHash := phoneCodeHash u; commandStatus := commandStatus u;
     puppetData := v; contacts := contacts u;
     _telegramPuppet := _telegramPuppet u |}.

Definition with_contacts (v : list TelegramUser.t) (u : MatrixUser) : MatrixUser :=
  {| userID := userID u; whitelisted := whitelisted u; phoneNumber := phoneNumber u;
     phoneCodeHash := phoneCodeHash u; commandStatus := commandStatus u;
     puppetData := puppetData u; contacts := v;
     _telegramPuppet := _telegramPuppet u |}.

Definition with__telegramPuppet (v : option TelegramPuppet) (u : MatrixUser) : MatrixUser :=
  {| userID := userID u; whitelisted := whitelisted u; phoneNumber := phoneNumber u;
     phoneCodeHash := phoneCodeHash u; commandStatus := commandStatus u;
     puppetData := puppetData u; contacts := contacts u;
     _telegramPuppet := v |}.

Definition quote : string := String (Ascii.ascii_of_nat 34) EmptyString.

(** One result of [searchContacts]; [match_] is its [match] property. *)
Record SearchResult : Type := {
  similarity : Q;
  match_ : Q;
  contact : TelegramUser.t;
}.

(** [Array.prototype.sort(compare)]: an element stays before the ones
    it compares equal to (the sort is stable). *)
Fixpoint sort_insert {A} (compare : A -> A -> Q) (x : A) (sorted : list A) : list A :=
  match sorted with
  | [] => [x]
  | y :: rest =>
      if Qle_bool (compare x y) 0
      then x :: y :: rest
      else y :: sort_insert compare x rest
  end.

Definition sort {A} (compare : A -> A -> Q) (l : list A) : list A :=
  fold_right (sort_insert compare) [] l.

(** [Array.prototype.slice(0, end)], for a count [end]. *)
Definition slice0 {A} (l : list A) (end_ : nat) : list A := firstn end_ l.

Section Methods.

Variable co : Collaborators.

(** [constructor(app, userID)] *)
Definition new_MatrixUser (id : string) : MatrixUser :=
  {| userID := id;
     whitelisted := checkWhitelist co id;
     phoneNumber := None;
     phoneCodeHash := None;
     commandStatus := None;
     puppetData := None;
     contacts := [];
     _telegramPuppet := None |}.

(** [get telegramPuppet()] *)
Definition telegramPuppet : M TelegramPuppet :=
  u <- get_this ;;
  match _telegramPuppet u with
  | Some puppet => ret puppet
  | None =>
      let data := match puppetData u with
                  | Some d => d
                  | None => empty_subentry co
                  end in
      let puppet := fromSubentry co u data in
      set_this (with__telegramPuppet (Some puppet)) ;;
      ret puppet
  end.

(** [parseTelegramError(err)]: it never returns. *)
Definition parseTelegramError {A} (err : thrown) : M A :=
  fun st =>
    match toPrintable err with
    | Throw type_error => (Throw type_error, st)
    | Return printable =>
        match (match printable with
               | Some text => Return text
               | None => toString err
               end) with
        | Throw type_error => (Throw type_error, st)
        | Return message =>
            if instanceof_Error err then throw err st
            else throw (new_Error message) st
        end
    end.

(** [get contactIDs()] *)
Definition contactIDs : M (list Z) :=
  u <- get_this ;;
  ret (map TelegramUser.id (contacts u)).

(** [set contactIDs(list)] *)
Definition set_contactIDs (list : option (list Z)) : M unit :=
  setTimeout (Timer_contactIDs list).

(** The callback of the setter, when the timer fires. *)
Definition run_timer (callback : timer) : M unit :=
  match callback with
  | Timer_contactIDs (Some list) =>
      resolved <- Promise_all_map list (@Call_getTelegramUser) (getTelegramUser co) ;;
      set_this (with_contacts resolved)
  | Timer_contactIDs None => ret tt
  end.

(** [save()] *)
Definition save : M unit :=
  u <- get_this ;;
  call (Call_putUser u) (putUser co u).

(** The loop of [syncContacts] over [Object.entries(contacts.users)]:
    each element of the array is replaced by the Telegram user object
    of its id, updated from it. The objects are kept by value, as they
    are when they are stored. *)
Fixpoint syncContacts_loop (users : list Remote.user) : M (list TelegramUser.t) :=
  match users with
  | [] => ret []
  | contact :: rest =>
      telegramUser <- call (Call_getTelegramUser (Remote.user_id contact))
                           (getTelegramUser co (Remote.user_id contact)) ;;
      puppet <- telegramPuppet ;;
      telegramUser <- call (Call_TelegramUser_updateInfo telegramUser contact true)
                           (TelegramUser_updateInfo co telegramUser puppet contact true) ;;
      rest <- syncContacts_loop rest ;;
      ret (telegramUser :: rest)
  end.

(** [async syncContacts()] *)
Definition syncContacts : M bool :=
  puppet <- telegramPuppet ;;
  ids <- contactIDs ;;
  let hash := md5 co (join "," (map string_of_Z ids)) in
  contacts <- call (Call_client "contacts.getContacts" (Some hash))
                   (client_getContacts co puppet hash) ;;
  if (Remote.contacts_tag contacts =? "contacts.contactsNotModified")%string
  then ret false
  else
    users <- syncContacts_loop (Remote.users contacts) ;;
    set_this (with_contacts users) ;;
    save ;;
    ret true.

Definition console_error (arg : logged) : M unit :=
  call (Call_console_error arg) (Return tt).

(** The body of the loop of [syncDialogs], with [changed] passed
    through. *)
Definition syncDialogs_body (createRooms : bool) (dialog : Remote.chat)
    (changed : bool) : M bool :=
  let peer := {| TelegramPeer.type := Remote.chat_tag dialog;
                 TelegramPeer.id := Remote.chat_id dialog |} in
  portal <- call (Call_getPortalByPeer peer) (getPortalByPeer co peer) ;;
  puppet <- telegramPuppet ;;
  updated <- call (Call_Portal_updateInfo portal dialog)
                  (Portal_updateInfo co portal puppet dialog) ;;
  let changed := if updated then true else changed in
  (if createRooms then
     try_catch
       (puppet <- telegramPuppet ;;
        u <- get_this ;;
        call (Call_createMatrixRoom portal [userID u])
             (createMatrixRoom co portal puppet [userID u]))
       (fun err =>
          console_error (Logged_value err) ;;
          (fun st => (get "stack" err, st)) ;;
          console_error (Logged_stack err))
   else ret tt) ;;
  ret changed.

Definition skipped (dialog : Remote.chat) : bool :=
  (Remote.chat_tag dialog =? "chatForbidden")%string || Remote.deactivated dialog.

Fixpoint syncDialogs_loop (createRooms : bool) (chats : list Remote.chat)
    (changed : bool) : M bool :=
  match chats with
  | [] => ret changed
  | dialog :: rest =>
      if skipped dialog
      then syncDialogs_loop createRooms rest changed
      else
        changed <- syncDialogs_body createRooms dialog changed ;;
        syncDialogs_loop createRooms rest changed
  end.

(** [async syncDialogs({ createRooms = true } = {})] *)
Definition syncDialogs (options : option bool) : M bool :=
  let createRooms := match options with
                     | Some b => b
                     | None => true
                     end in
  puppet <- telegramPuppet ;;
  dialogs <- call (Call_client "messages.getDialogs" None)
                  (client_getDialogs co puppet) ;;
  syncDialogs_loop createRooms (Remote.chats dialogs) false.

(** [Math.max] of three numbers. *)
Definition Math_max (a b c : Q) : Q :=
  let ab := if Qle_bool a b then b else a in
  if Qle_bool ab c then c else ab.

(** [Math.round]: the nearest integer, halves upwards (an integer below
    2^53 in absolute value is a double). *)
Definition Math_round (x : Q) : Q := inject_Z (Qfloor (x + (1 # 2))).

Definition displaynameSimilarity (query : string) (contact : TelegramUser.t) : Q :=
  if truthy (TelegramUser.firstName contact) || truthy (TelegramUser.lastName contact)
  then compareTwoStrings co query (getFirstAndLastName co contact)
  else 0%Q.

Definition usernameSimilarity (query : string) (contact : TelegramUser.t) : Q :=
  match TelegramUser.username contact with
  | Some name => if truthy (Some name) then compareTwoStrings co query name else 0%Q
  | None => 0%Q
  end.

Definition numberSimilarity (query : string) (contact : TelegramUser.t) : Q :=
  match TelegramUser.phoneNumber contact with
  | Some number => if truthy (Some number) then compareTwoStrings co query number else 0%Q
  | None => 0%Q
  end.

Definition contact_similarity (query : string) (contact : TelegramUser.t) : Q :=
  Math_max (displaynameSimilarity query contact)
           (usernameSimilarity query contact)
           (numberSimilarity query contact).

(** The loop of [searchContacts]: the results pushed, in the order of
    the contacts. *)
Fixpoint searchContacts_loop (query : string) (minSimilarity : Q)
    (contacts : list TelegramUser.t) : list SearchResult :=
  match contacts with
  | [] => []
  | contact :: rest =>
      let similarity := contact_similarity query contact in
      if Qle_bool minSimilarity similarity
      then {| similarity := similarity;
              match_ := Double.div (Math_round (Double.mul similarity 1000)) 10;
              contact := contact |}
           :: searchContacts_loop query minSimilarity rest
      else searchContacts_loop query minSimilarity rest
  end.

(** [async searchContacts(query, { maxResults = 5, minSimilarity = 0.45 } = {})] *)
Definition searchContacts (query : string) (maxResults : option nat)
    (minSimilarity : option Q) : M (list SearchResult) :=
  let maxResults := match maxResults with
                    | Some n => n
                    | None => 5%nat
                    end in
  let minSimilarity := match minSimilarity with
                       | Some q => q
                       | None => (45 # 100)%Q
                       end in
  u <- get_this ;;
  let results := searchContacts_loop query minSimilarity (contacts u) in
  ret (slice0 (sort (fun a b => (similarity b - similarity a)%Q) results) maxResults).

(** [async sendTelegramCode(phoneNumber)] *)
Definition sendTelegramCode (phone : string) : M Remote.sentCode :=
  u <- get_this ;;
  if match _telegramPuppet u with
     | Some puppet => truthy_num (puppet_userID co puppet)
     | None => false
     end
  then throw (new_Error
                "You are already logged in. Please log out before logging in again.")
  else
    puppet <- telegramPuppet ;;
    status <- call (Call_checkPhone phone) (checkPhone co puppet phone) ;;
    if (status =? "unregistered")%string
    then throw (new_Error
                  "That number has not been registered. Please register it first.")
    else if (status =? "invalid")%string
    then throw (new_Error "Invalid phone number.")
    else
      try_catch
        (puppet <- telegramPuppet ;;
         result <- call (Call_sendCode phone) (sendCode co puppet phone) ;;
         set_this (with_phoneNumber (Some phone)) ;;
         set_this (with_phoneCodeHash (Remote.phone_code_hash result)) ;;
         save ;;
         ret result)
        (fun err => parseTelegramError err).

(** [async logOutFromTelegram()]: the call to [logOut] is not awaited,
    only what it throws at once is propagated. *)
Definition logOutFromTelegram : M bool :=
  puppet <- telegramPuppet ;;
  call Call_logOut (logOut co puppet) ;;
  set_this (with__telegramPuppet None) ;;
  set_this (with_puppetData None) ;;
  save ;;
  ret true.

(** [async signInToTelegram(phoneCode)] *)
Definition signInToTelegram (phoneCode : string) : M SignInResult :=
  u <- get_this ;;
  if negb (truthy (phoneNumber u)) then throw (new_Error "Phone number not set")
  else if negb (truthy (phoneCodeHash u)) then throw (new_Error "Phone code not sent")
  else
    puppet <- telegramPuppet ;;
    u <- get_this ;;
    result <- call (Call_signIn (phoneNumber u) (phoneCodeHash u) phoneCode)
                   (signIn co puppet (phoneNumber u) (phoneCodeHash u) phoneCode) ;;
    set_this (with_phoneCodeHash None) ;;
    save ;;
    ret result.

(** [toEntry()] *)
Definition toEntry : M Entry :=
  u <- get_this ;;
  match _telegramPuppet u with
  | Some puppet => set_this (with_puppetData (Some (toSubentry co puppet)))
  | None => ret tt
  end ;;
  u <- get_this ;;
  ids <- contactIDs ;;
  ret {| entry_type := "matrix";
         entry_id := userID u;
         entry_data := {| data_phoneNumber := phoneNumber u;
                          data_phoneCodeHash := phoneCodeHash u;
                          data_contactIDs := Some ids;
                          data_puppet := puppetData u |} |}.

Definition wrong_entry_type : thrown :=
  new_Error ("MatrixUser can only be created from entry type "
             ++ quote ++ "matrix" ++ quote).

(** [static fromEntry(app, entry)]: the new user, or what was thrown. *)
Definition fromEntry (entry : Entry) (w : world) : outcome MatrixUser * world :=
  if negb (entry_type entry =? "matrix")%string
  then (Throw wrong_entry_type, w)
  else
    let user := new_MatrixUser (entry_id entry) in
    let body :=
      set_this (with_phoneNumber (data_phoneNumber (entry_data entry))) ;;
      set_this (with_phoneCodeHash (data_phoneCodeHash (entry_data entry))) ;;
      set_contactIDs (data_contactIDs (entry_data entry)) ;;
      match data_puppet (entry_data entry) with
      | Some puppet =>
          set_this (with_puppetData (Some puppet)) ;;
          _ <- telegramPuppet ;;
          ret tt
      | None => ret tt
      end in
    match body {| this := user; env := w |} with
    | (Return _, st) => (Return (this st), env st)
    | (Throw err, st) => (Throw err, env st)
    end.

(** The session's [checkPassword] (telegram-puppet.js) and what it
    resolves to. The trace has no entry for this call. *)
Variable CheckPasswordResult : Type.
Variable TelegramPuppet_checkPassword :
  TelegramPuppet -> string -> outcome CheckPasswordResult.

(** [async checkPassword(password_hash)] *)
Definition checkPassword (password_hash : string) : M CheckPasswordResult :=
  puppet <- telegramPuppet ;;
  result <- (fun st => (TelegramPuppet_checkPassword puppet password_hash, st)) ;;
  save ;;
  ret result.

End Methods.

End Model.

Arguments telegramPuppet : simpl never.
Arguments Call_client {TelegramPuppet PuppetData Portal} method hash.
Arguments Call_checkPhone {TelegramPuppet PuppetData Portal} phone.
Arguments Call_sendCode {TelegramPuppet PuppetData Portal} phone.
Arguments Call_signIn {TelegramPuppet PuppetData Portal} phone hash code.
Arguments Call_logOut {TelegramPuppet PuppetData Portal}.
Arguments Call_getTelegramUser {TelegramPuppet PuppetData Portal} id.
Arguments Call_TelegramUser_updateInfo {TelegramPuppet PuppetData Portal} user info force.
Arguments Call_getPortalByPeer {TelegramPuppet PuppetData Portal} peer.
Arguments Call_Portal_updateInfo {TelegramPuppet PuppetData Portal} portal dialog.
Arguments Call_createMatrixRoom {TelegramPuppet PuppetData Portal} portal invite.
Arguments Call_console_error {TelegramPuppet PuppetData Portal} arg.
Arguments Call_putUser {TelegramPuppet PuppetData Portal} user.

(** ** Observations on a run *)

Section Observations.

Context {TelegramPuppet PuppetData Portal SignInResult : Type}.

Local Abbreviation MatrixUser := (MatrixUser TelegramPuppet PuppetData).
Local Abbreviation Collaborators :=
  (Collaborators TelegramPuppet PuppetData Portal SignInResult).
Local Abbreviation event := (event TelegramPuppet PuppetData Portal).
Local Abbreviation state := (state TelegramPuppet PuppetData Portal).

(** The puppet that the [telegramPuppet] getter answers for [u]. *)
Definition puppet_of (co : Collaborators) (u : MatrixUser) : TelegramPuppet :=
  match _telegramPuppet u with
  | Some puppet => puppet
  | None =>
      fromSubentry co u
        (match puppetData u with Some d => d | None => empty_subentry co end)
  end.

(** [u] after the getter has run. *)
Definition with_puppet (co : Collaborators) (u : MatrixUser) : MatrixUser :=
  match _telegramPuppet u with
  | Some _ => u
  | None => with__telegramPuppet (Some (puppet_of co u)) u
  end.

(** The session of [u] reports an identity: the test of
    [sendTelegramCode]. *)
Definition authenticated (co : Collaborators) (u : MatrixUser) : bool :=
  match _telegramPuppet u with
  | Some puppet => truthy_num (puppet_userID co puppet)
  | None => false
  end.

Definition is_putUser (ev : event) : bool :=
  match ev with
  | Call_putUser _ => true
  | _ => false
  end.

Definition is_console_error (ev : event) : bool :=
  match ev with
  | Call_console_error _ => true
  | _ => false
  end.

(** The calls of a trace that reach a collaborator of the bridge (all but
    the lines written to the console). *)
Definition without_console (tr : list event) : list event :=
  filter (fun ev => negb (is_console_error ev)) tr.

(** The calls made to [app.putUser]. *)
Definition persisted (tr : list event) : list event := filter is_putUser tr.

(** [st] after the calls [evs], with [u] for [this]. *)
Definition after (evs : list event) (u : MatrixUser) (st : state) : state :=
  {| this := u;
     env := {| trace := trace (env st) ++ evs; timers := timers (env st) |} |}.

(** The hash that [syncContacts] presents. *)
Definition contacts_hash (co : Collaborators) (u : MatrixUser) : string :=
  md5 co (join "," (map string_of_Z (map TelegramUser.id (contacts u)))).

(** The Telegram user objects that the loop of [syncContacts] stores for
    the users of the answer: for each, in order, the object of its id
    after its forced update. *)
Inductive refreshed (co : Collaborators) (puppet : TelegramPuppet) :
    list Remote.user -> list TelegramUser.t -> Prop :=
| refreshed_nil : refreshed co puppet [] []
| refreshed_cons contact rest telegramUser updated l :
    getTelegramUser co (Remote.user_id contact) = Return telegramUser ->
    TelegramUser_updateInfo co telegramUser puppet contact true = Return updated ->
    refreshed co puppet rest l ->
    refreshed co puppet (contact :: rest) (updated :: l).

(** [co], with another [createMatrixRoom]. *)
Definition with_createMatrixRoom
    (f : Portal -> TelegramPuppet -> list string -> outcome unit)
    (co : Collaborators) : Collaborators :=
  {| fromSubentry := fromSubentry co;
     empty_subentry := empty_subentry co;
     toSubentry := toSubentry co;
     puppet_userID := puppet_userID co;
     client_getContacts := client_getContacts co;
     client_getDialogs := client_getDialogs co;
     checkPhone := checkPhone co;
     sendCode := sendCode co;
     signIn := signIn co;
     logOut := logOut co;
     checkWhitelist := checkWhitelist co;
     getTelegramUser := getTelegramUser co;
     getPortalByPeer := getPortalByPeer co;
     putUser := putUser co;
     Portal_updateInfo := Portal_updateInfo co;
     createMatrixRoom := f;
     TelegramUser_updateInfo := TelegramUser_updateInfo co;
     getFirstAndLastName := getFirstAndLastName co;
     md5 := md5 co;
     compareTwoStrings := compareTwoStrings co |}.

(** [co], with another answer to [messages.getDialogs]. *)
Definition with_client_getDialogs
    (f : TelegramPuppet -> outcome Remote.dialogs)
    (co : Collaborators) : Collaborators :=
  {| fromSubentry := fromSubentry co;
     empty_subentry := empty_subentry co;
     toSubentry := toSubentry co;
     puppet_userID := puppet_userID co;
     client_getContacts := client_getContacts co;
     client_getDialogs := f;
     checkPhone := checkPhone co;
     sendCode := sendCode co;
     signIn := signIn co;
     logOut := logOut co;
     checkWhitelist := checkWhitelist co;
     getTelegramUser := getTelegramUser co;
     getPortalByPeer := getPortalByPeer co;
     putUser := putUser co;
     Portal_updateInfo := Portal_updateInfo co;
     createMatrixRoom := createMatrixRoom co;
     TelegramUser_updateInfo := TelegramUser_updateInfo co;
     getFirstAndLastName := getFirstAndLastName co;
     md5 := md5 co;
     compareTwoStrings := compareTwoStrings co |}.

(** The answer to [messages.getDialogs] without the conversations that
    [syncDialogs] passes over. *)
Definition without_skipped (answer : outcome Remote.dialogs) : outcome Remote.dialogs :=
  match answer with
  | Return dialogs =>
      Return {| Remote.chats :=
                  filter (fun dialog => negb (skipped dialog)) (Remote.chats dialogs) |}
  | Throw err => Throw err
  end.

(** The peer that [syncDialogs] builds for a conversation. *)
Definition peer_of (dialog : Remote.chat) : TelegramPeer.t :=
  {| TelegramPeer.type := Remote.chat_tag dialog;
     TelegramPeer.id := Remote.chat_id dialog |}.

(** The calls of the room-creation step of [syncDialogs] for one
    conversation: the creation and, when it fails, the lines written to
    the console: the value thrown and, unless that is [null] or
    [undefined], its stack. *)
Definition room_calls (co : Collaborators) (createRooms : bool) (portal : Portal)
    (u : MatrixUser) : list event :=
  if createRooms
  then Call_createMatrixRoom portal [userID u]
       :: match createMatrixRoom co portal (puppet_of co u) [userID u] with
          | Return _ => []
          | Throw err =>
              Call_console_error (Logged_value err)
              :: (if is_nullish err then [] else [Call_console_error (Logged_stack err)])
          end
  else [].

(** What the handler of the room-creation step throws itself: the
    [TypeError] of reading the stack of [null] or [undefined]. *)
Definition room_failure (co : Collaborators) (createRooms : bool) (portal : Portal)
    (u : MatrixUser) : option thrown :=
  if createRooms
  then match createMatrixRoom co portal (puppet_of co u) [userID u] with
       | Return _ => None
       | Throw err =>
           if is_nullish err then Some (TypeError_reading err "stack") else None
       end
  else None.

(** A call that rejects with [null] or [undefined]. *)
Definition rejects_nullish {A} (o : outcome A) : bool :=
  match o with
  | Return _ => false
  | Throw err => is_nullish err
  end.

(** No room creation of the bridge rejects with [null] or [undefined]. *)
Definition rooms_handled (co : Collaborators) : Prop :=
  forall portal puppet invite,
    rejects_nullish (createMatrixRoom co portal puppet invite) = false.

(** Two states that differ by lines written to the console at most. *)
Definition same_but_console (st1 st2 : state) : Prop :=
  this st1 = this st2
  /\ timers (env st1) = timers (env st2)
  /\ without_console (trace (env st1)) = without_console (trace (env st2)).

(** What the loop of [searchContacts] pushes for a contact. *)
Definition result_of (co : Collaborators) (query : string) (c : TelegramUser.t) : SearchResult :=
  {| similarity := contact_similarity co query c;
     match_ := Double.div (Math_round (Double.mul (contact_similarity co query c) 1000)) 10;
     contact := c |}.

(** The order of the results of [searchContacts]: by similarity,
    descending; [by_similarity] is the function given to [sort]. *)
Definition ranked_before (a b : SearchResult) : Prop :=
  (similarity b <= similarity a)%Q.

Definition by_similarity (a b : SearchResult) : Q := (similarity b - similarity a)%Q.

(** [k] is an integer nearest to [x], the upper one of two. *)
Definition nearest_integer (x k : Q) : Prop :=
  (exists z : Z, k = inject_Z z) /\ (x - (1 # 2) < k)%Q /\ (k <= x + (1 # 2))%Q.

(** [m] is [x] rounded to the nearest tenth: a number of tenths, at most
    half a tenth away from [x]. *)
Definition nearest_tenth (x m : Q) : Prop :=
  (exists k : Z, m == k # 10)%Q /\ (x - (1 # 20) < m)%Q /\ (m <= x + (1 # 20))%Q.

(** [v] is [u] but for its session object. *)
Definition same_profile (u v : MatrixUser) : Prop :=
  userID v = userID u
  /\ whitelisted v = whitelisted u
  /\ phoneNumber v = phoneNumber u
  /\ phoneCodeHash v = phoneCodeHash u
  /\ commandStatus v = commandStatus u
  /\ puppetData v = puppetData u
  /\ contacts v = contacts u.

(** What [portal.updateInfo] answers for a conversation, [false] when the
    portal or the answer is missing. *)
Definition dialog_changed (co : Collaborators) (puppet : TelegramPuppet)
    (dialog : Remote.chat) : bool :=
  match getPortalByPeer co (peer_of dialog) with
  | Return portal =>
      match Portal_updateInfo co portal puppet dialog with
      | Return updated => updated
      | Throw _ => false
      end
  | Throw _ => false
  end.

(** The portal of a conversation is found and updated. *)
Definition dialog_updates (co : Collaborators) (puppet : TelegramPuppet)
    (dialog : Remote.chat) : Prop :=
  exists portal updated,
    getPortalByPeer co (peer_of dialog) = Return portal
    /\ Portal_updateInfo co portal puppet dialog = Return updated.

Definition is_createMatrixRoom (ev : event) : bool :=
  match ev with
  | Call_createMatrixRoom _ _ => true
  | _ => false
  end.

(** The calls of a trace but the room creations and the console lines. *)
Definition without_rooms (tr : list event) : list event :=
  filter (fun ev => negb (is_createMatrixRoom ev || is_console_error ev)) tr.

(** Two states that differ by room creations and console lines at most. *)
Definition same_but_rooms (st1 st2 : state) : Prop :=
  this st1 = this st2
  /\ timers (env st1) = timers (env st2)
  /\ without_rooms (trace (env st1)) = without_rooms (trace (env st2)).

(** The contacts that pass the threshold of [searchContacts]. *)
Definition qualifies (co : Collaborators) (query : string) (threshold : Q)
    (c : TelegramUser.t) : bool :=
  Qle_bool threshold (contact_similarity co query c).

(** A contact with no name, no username and no phone number. *)
Definition no_profile (c : TelegramUser.t) : bool :=
  negb (truthy (TelegramUser.firstName c))
  && negb (truthy (TelegramUser.lastName c))
  && negb (truthy (TelegramUser.username c))
  && negb (truthy (TelegramUser.phoneNumber c)).

End Observations.

Arguments without_rooms : simpl never.

Arguments without_console : simpl never.
Arguments persisted : simpl never.

(** ** A bridge to run the methods on *)

Module Sample.

(** A puppet is its [userID]; its subentry is the same. A portal is its
    peer. [signIn] resolves to a status. *)
Definition Puppet : Type := option Z.
Definition Data : Type := option Z.
Definition Portal : Type := TelegramPeer.t.
Definition SignIn : Type := string.

Definition registry (id : Z) : TelegramUser.t :=
  {| TelegramUser.id := id;
     TelegramUser.firstName := None;
     TelegramUser.lastName := None;
     TelegramUser.username := None;
     TelegramUser.phoneNumber := None |}.

Definition update (user : TelegramUser.t) (info : Remote.user) : TelegramUser.t :=
  {| TelegramUser.id := TelegramUser.id user;
     TelegramUser.firstName := Remote.first_name info;
     TelegramUser.lastName := Remote.last_name info;
     TelegramUser.username := Remote.user_username info;
     TelegramUser.phoneNumber := Remote.phone info |}.

Definition names (user : TelegramUser.t) : string :=
  match TelegramUser.firstName user, TelegramUser.lastName user with
  | Some f, Some l => f ++ " " ++ l
  | Some f, None => f
  | None, Some l => l
  | None, None => ""
  end.

(** The bridge, for given answers of the Telegram session and of the room
    creation. A conversation has changed when its id is even; two strings
    are similar when they are equal. *)
Definition collaborators
    (contacts_answer : outcome Remote.contacts)
    (dialogs_answer : outcome Remote.dialogs)
    (sendCode_answer : outcome Remote.sentCode)
    (signIn_answer : outcome SignIn)
    (room_answer : TelegramPeer.t -> outcome unit) :
    Collaborators Puppet Data Portal SignIn :=
  {| fromSubentry := fun _ data => data;
     empty_subentry := None;
     toSubentry := fun puppet => puppet;
     puppet_userID := fun puppet => puppet;
     client_getContacts := fun _ _ => contacts_answer;
     client_getDialogs := fun _ => dialogs_answer;
     checkPhone := fun _ _ => Return "registered";
     sendCode := fun _ _ => sendCode_answer;
     signIn := fun _ _ _ _ => signIn_answer;
     logOut := fun _ => Return tt;
     checkWhitelist := fun _ => true;
     getTelegramUser := fun id => Return (registry id);
     getPortalByPeer := fun peer => Return peer;
     putUser := fun _ => Return tt;
     Portal_updateInfo := fun _ _ dialog => Return (Z.even (Remote.chat_id dialog));
     createMatrixRoom := fun portal _ _ => room_answer portal;
     TelegramUser_updateInfo := fun user _ info _ => Return (update user info);
     getFirstAndLastName := names;
     md5 := fun s => s;
     compareTwoStrings := fun a b => if (a =? b)%string then 1%Q else 0%Q |}.

Definition not_modified : Remote.contacts :=
  {| Remote.contacts_tag := "contacts.contactsNotModified"; Remote.users := [] |}.

Definition remote_alice : Remote.user :=
  {| Remote.user_id := 7;
     Remote.first_name := Some "Alice";
     Remote.last_name := None;
     Remote.user_username := Some "alice";
     Remote.phone := None |}.

Definition remote_bob : Remote.user :=
  {| Remote.user_id := 9;
     Remote.first_name := None;
     Remote.last_name := None;
     Remote.user_username := None;
     Remote.phone := Some "5551234" |}.

Definition two_contacts : Remote.contacts :=
  {| Remote.contacts_tag := "contacts.contacts";
     Remote.users := [remote_alice; remote_bob] |}.

Definition alice : TelegramUser.t := update (registry 7) remote_alice.
Definition bob : TelegramUser.t := update (registry 9) remote_bob.

Definition chat (tag : string) (id : Z) (deactivated : bool) : Remote.chat :=
  {| Remote.chat_tag := tag; Remote.chat_id := id; Remote.deactivated := deactivated |}.

Definition three_dialogs : Remote.dialogs :=
  {| Remote.chats := [chat "chat" 1 false; chat "chatForbidden" 2 false;
                      chat "channel" 4 false] |}.

Definition sent : Remote.sentCode := {| Remote.phone_code_hash := Some "c0de" |}.

Definition no_room : Js.thrown := Js.new_Error "M_FORBIDDEN".

(** The bridge where every call succeeds. *)
Definition co : Collaborators Puppet Data Portal SignIn :=
  collaborators (Return two_contacts) (Return three_dialogs) (Return sent)
    (Return "ok") (fun _ => Return tt).

(** A user who has never logged in. *)
Definition fresh : MatrixUser Puppet Data := new_MatrixUser co "@user:example.org".

(** A user who has asked for a code. *)
Definition code_sent : MatrixUser Puppet Data :=
  with_phoneCodeHash (Some "c0de") (with_phoneNumber (Some "+15551234") fresh).

(** A user whose session is logged in as 42, after the code was sent. *)
Definition logged_in : MatrixUser Puppet Data :=
  with__telegramPuppet (Some (Some 42)) (with_puppetData (Some (Some 42)) code_sent).

(** The bridge whose Telegram session refuses the code. *)
Definition co_refused : Collaborators Puppet Data Portal SignIn :=
  collaborators (Return two_contacts) (Return three_dialogs) (Return sent)
    (Throw (Js.new_Error "PHONE_CODE_INVALID")) (fun _ => Return tt).

(** The bridge whose Telegram session fails to send a code, with an object
    that is not an [Error] and has a [toPrintable] method. *)
Definition flood : Js.thrown := Js.Object (Some "FLOOD_WAIT_42") "[object Object]".

Definition co_flood : Collaborators Puppet Data Portal SignIn :=
  collaborators (Return two_contacts) (Return three_dialogs) (Throw flood)
    (Return "ok") (fun _ => Return tt).

(** The bridge whose contacts have not changed. *)
Definition co_unchanged : Collaborators Puppet Data Portal SignIn :=
  collaborators (Return not_modified) (Return three_dialogs) (Return sent)
    (Return "ok") (fun _ => Return tt).

(** A room creation that fails for every portal. *)
Definition no_rooms : Portal -> Puppet -> list string -> outcome unit :=
  fun _ _ _ => Throw no_room.

Definition all_rooms : Portal -> Puppet -> list string -> outcome unit :=
  fun _ _ _ => Return tt.

(** A room creation that rejects with no reason, as [Promise.reject()] and
    [throw undefined] do. *)
Definition lost_rooms : Portal -> Puppet -> list string -> outcome unit :=
  fun _ _ _ => Throw Js.Undefined.

(** A user with two contacts. *)
Definition with_friends : MatrixUser Puppet Data := with_contacts [alice; bob] fresh.

Definition start (u : MatrixUser Puppet Data) : state Puppet Data Portal :=
  {| this := u; env := {| trace := []; timers := [] |} |}.

(** The sample bridge with other answers of the session about the number
    and the logout, of [app.putUser], of the user registry and of the
    portal registry. *)
Definition variant
    (checkPhone_answer : outcome string)
    (logOut_answer : outcome unit)
    (putUser_answer : outcome unit)
    (lookup : Z -> outcome TelegramUser.t)
    (portal : TelegramPeer.t -> outcome Portal) :
    Collaborators Puppet Data Portal SignIn :=
  {| fromSubentry := fromSubentry co;
     empty_subentry := empty_subentry co;
     toSubentry := toSubentry co;
     puppet_userID := puppet_userID co;
     client_getContacts := client_getContacts co;
     client_getDialogs := client_getDialogs co;
     checkPhone := fun _ _ => checkPhone_answer;
     sendCode := sendCode co;
     signIn := signIn co;
     logOut := fun _ => logOut_answer;
     checkWhitelist := checkWhitelist co;
     getTelegramUser := lookup;
     getPortalByPeer := portal;
     putUser := fun _ => putUser_answer;
     Portal_updateInfo := Portal_updateInfo co;
     createMatrixRoom := createMatrixRoom co;
     TelegramUser_updateInfo := TelegramUser_updateInfo co;
     getFirstAndLastName := getFirstAndLastName co;
     md5 := md5 co;
     compareTwoStrings := compareTwoStrings co |}.

Definition found (id : Z) : outcome TelegramUser.t := Return (registry id).
Definition opened (peer : TelegramPeer.t) : outcome Portal := Return peer.

(** The session says that the number is invalid. *)
Definition co_invalid : Collaborators Puppet Data Portal SignIn :=
  variant (Return "invalid") (Return tt) (Return tt) found opened.

(** The database refuses the user. *)
Definition disk_full : Js.thrown := Js.Object None "ENOSPC".

Definition co_disk_full : Collaborators Puppet Data Portal SignIn :=
  variant (Return "registered") (Return tt) (Throw disk_full) found opened.

(** The session throws when asked to log out. *)
Definition offline : Js.thrown := Js.new_Error "offline".

Definition co_offline : Collaborators Puppet Data Portal SignIn :=
  variant (Return "registered") (Throw offline) (Return tt) found opened.

(** The registry has no user 9. *)
Definition co_no_bob : Collaborators Puppet Data Portal SignIn :=
  variant (Return "registered") (Return tt) (Return tt)
    (fun id => if id =? 9 then Throw (Js.new_Error "no such user") else found id)
    opened.

(** The registry has no portal for the conversation 4. *)
Definition co_no_portal : Collaborators Puppet Data Portal SignIn :=
  variant (Return "registered") (Return tt) (Return tt) found
    (fun peer => if TelegramPeer.id peer =? 4
                 then Throw (Js.new_Error "no such portal")
                 else opened peer).

(** A table of scores: 1 for the query itself; for "alicia" the double
    78/160, a value that the Dice coefficient of the package takes
    ([2 * 39 / (81 + 81 - 2)] for two strings of 81 characters with 39
    common bigrams); one half for "alina"; 0 for anything else. *)
Definition similarity_table (a b : string) : Q :=
  if (a =? b)%string then 1%Q
  else if (b =? "alicia")%string then Double.div 78 160
  else if (b =? "alina")%string then (1 # 2)%Q
  else 0%Q.

(** The sample bridge with these scores. *)
Definition co_ranked : Collaborators Puppet Data Portal SignIn :=
  {| fromSubentry := fromSubentry co;
     empty_subentry := empty_subentry co;
     toSubentry := toSubentry co;
     puppet_userID := puppet_userID co;
     client_getContacts := client_getContacts co;
     client_getDialogs := client_getDialogs co;
     checkPhone := checkPhone co;
     sendCode := sendCode co;
     signIn := signIn co;
     logOut := logOut co;
     checkWhitelist := checkWhitelist co;
     getTelegramUser := getTelegramUser co;
     getPortalByPeer := getPortalByPeer co;
     putUser := putUser co;
     Portal_updateInfo := Portal_updateInfo co;
     createMatrixRoom := createMatrixRoom co;
     TelegramUser_updateInfo := TelegramUser_updateInfo co;
     getFirstAndLastName := getFirstAndLastName co;
     md5 := md5 co;
     compareTwoStrings := similarity_table |}.

(** Two contacts of which the username alone is known. *)
Definition named (id : Z) (username : string) : TelegramUser.t :=
  {| TelegramUser.id := id;
     TelegramUser.firstName := None;
     TelegramUser.lastName := None;
     TelegramUser.username := Some username;
     TelegramUser.phoneNumber := None |}.

Definition alicia : TelegramUser.t := named 11 "alicia".
Definition alina : TelegramUser.t := named 12 "alina".

(** A user with four contacts. *)
Definition acquainted : MatrixUser Puppet Data :=
  with_contacts [alicia; bob; alina; alice] fresh.

(** The session's password check, which accepts the hash "s3cret". *)
Definition password (puppet : Puppet) (hash : string) : outcome bool :=
  if (hash =? "s3cret")%string then Return true
  else Throw (Js.new_Error "PASSWORD_HASH_INVALID").

(** An entry of the database with session data. *)
Definition stored : Entry Data :=
  {| entry_type := "matrix";
     entry_id := "@user:example.org";
     entry_data := {| data_phoneNumber := Some "+15551234";
                      data_phoneCodeHash := None;
                      data_contactIDs := Some [7; 9];
                      data_puppet := Some (Some 42) |} |}.

End Sample.

(** ** Properties *)

Section Properties.

Context {TelegramPuppet PuppetData Portal SignInResult : Type}.

Local Abbreviation MatrixUser := (MatrixUser TelegramPuppet PuppetData).
Local Abbreviation Collaborators :=
  (Collaborators TelegramPuppet PuppetData Portal SignInResult).
Local Abbreviation state := (state TelegramPuppet PuppetData Portal).
Local Abbreviation world := (world TelegramPuppet PuppetData Portal).
Local Abbreviation Entry := (Entry PuppetData).

Section Bridge.

Variable co : Collaborators.

(** *** Steps of the monad *)

Lemma state_eta (st : state) : {| this := this st; env := env st |} = st.
Proof. destruct st; reflexivity. Qed.

Lemma telegramPuppet_run (st : state) :
  telegramPuppet co st
  = (Return (puppet_of co (this st)),
     {| this := with_puppet co (this st); env := env st |}).
Proof.
  unfold telegramPuppet, with_puppet, puppet_of, bind, get_this, set_this, ret.
  cbn. destruct (_telegramPuppet (this st)); cbn; [now rewrite state_eta | reflexivity].
Qed.

Lemma puppet_of_with_puppet (u : MatrixUser) :
  puppet_of co (with_puppet co u) = puppet_of co u.
Proof.
  unfold with_puppet, puppet_of. destruct (_telegramPuppet u) eqn:E; cbn; [now rewrite E | reflexivity].
Qed.

Lemma with_puppet_idem (u : MatrixUser) :
  with_puppet co (with_puppet co u) = with_puppet co u.
Proof.
  unfold with_puppet. destruct (_telegramPuppet u) eqn:E; cbn; [now rewrite E | reflexivity].
Qed.

Lemma with_puppet_frame (u : MatrixUser) :
  userID (with_puppet co u) = userID u
  /\ whitelisted (with_puppet co u) = whitelisted u
  /\ phoneNumber (with_puppet co u) = phoneNumber u
  /\ phoneCodeHash (with_puppet co u) = phoneCodeHash u
  /\ commandStatus (with_puppet co u) = commandStatus u
  /\ contacts (with_puppet co u) = contacts u.
Proof.
  unfold with_puppet. destruct (_telegramPuppet u); cbn; auto 10.
Qed.

(** *** Login *)

(** C5. When the session of the user reports an identity,
    [sendTelegramCode] fails with the "already logged in" error; the user
    is as before and no call was made to a collaborator. *)
Theorem sendTelegramCode_already_authenticated (phone : string) (st : state) :
  authenticated co (this st) = true ->
  sendTelegramCode co phone st
  = (Throw (new_Error
              "You are already logged in. Please log out before logging in again."),
     st).
Proof.
  intros H. unfold sendTelegramCode, bind, get_this. cbn.
  unfold authenticated in H. rewrite H. reflexivity.
Qed.

(** *** Entries of the database *)

Lemma toEntry_run (st : state) :
  exists entry st',
    toEntry co st = (Return entry, st')
    /\ entry_type entry = "matrix"
    /\ entry_id entry = userID (this st)
    /\ data_phoneNumber (entry_data entry) = phoneNumber (this st)
    /\ data_phoneCodeHash (entry_data entry) = phoneCodeHash (this st)
    /\ data_contactIDs (entry_data entry)
       = Some (map TelegramUser.id (contacts (this st))).
Proof.
  unfold toEntry, bind, get_this, set_this, contactIDs, ret. cbn.
  destruct (_telegramPuppet (this st)); cbn; eauto 10.
Qed.

Lemma fromEntry_matrix (entry : Entry) (w : world) :
  entry_type entry = "matrix" ->
  exists user w',
    fromEntry co entry w = (Return user, w')
    /\ userID user = entry_id entry
    /\ phoneNumber user = data_phoneNumber (entry_data entry)
    /\ phoneCodeHash user = data_phoneCodeHash (entry_data entry)
    /\ contacts user = []
    /\ trace w' = trace w
    /\ timers w' = (timers w ++ [Timer_contactIDs (data_contactIDs (entry_data entry))])%list.
Proof.
  intros H. unfold fromEntry. rewrite H. cbn.
  unfold bind, set_this, set_contactIDs, setTimeout, ret. cbn.
  destruct (data_puppet (entry_data entry)); cbn;
    [rewrite telegramPuppet_run; cbn;
     destruct (with_puppet_frame
                 (with_puppetData (Some p)
                    (with_phoneCodeHash (data_phoneCodeHash (entry_data entry))
                       (with_phoneNumber (data_phoneNumber (entry_data entry))
                          (new_MatrixUser co (entry_id entry))))))
       as (Hid & _ & Hpn & Hph & _ & Hct);
     rewrite ?Hid, ?Hpn, ?Hph, ?Hct |]; cbn; eauto 10.
Qed.

(** C10. The entry that [toEntry] makes of a user has type "matrix";
    [fromEntry] accepts it and gives a user with the same [userID],
    [phoneNumber] and [phoneCodeHash]. [fromEntry] throws the
    wrong-entry-type error exactly for the entries whose type is not
    "matrix". *)
Theorem fromEntry_toEntry (st : state) (w : world) :
  (exists entry,
      fst (toEntry co st) = Return entry
      /\ entry_type entry = "matrix"
      /\ exists user,
          fst (fromEntry co entry w) = Return user
          /\ userID user = userID (this st)
          /\ phoneNumber user = phoneNumber (this st)
          /\ phoneCodeHash user = phoneCodeHash (this st))
  /\ (forall (entry : Entry) (w0 : world),
         fst (fromEntry co entry w0) = Throw wrong_entry_type
         <-> entry_type entry <> "matrix").
Proof.
  split.
  - destruct (toEntry_run st) as (entry & st' & Hrun & Hty & Hid & Hpn & Hph & _).
    exists entry. rewrite Hrun. repeat split; trivial.
    destruct (fromEntry_matrix entry w Hty) as (user & w' & Hfrom & Huid & Hupn & Huph & _).
    exists user. rewrite Hfrom. cbn. repeat split; congruence.
  - intros entry w0. split.
    + intros Hthrow Hty.
      destruct (fromEntry_matrix entry w0 Hty) as (user & w' & Hfrom & _).
      rewrite Hfrom in Hthrow. discriminate.
    + intros Hty. unfold fromEntry.
      destruct (String.eqb_spec (entry_type entry) "matrix") as [E | E];
        [contradiction | reflexivity].
Qed.

Lemma parseTelegramError_throws_Error {A} (err : thrown) (st : state) :
  exists message printable,
    parseTelegramError (A := A) err st = (Throw (Error message printable), st)
    /\ match err with
       | Error m p => message = m /\ printable = p
       | Object (Some p) _ => message = p /\ printable = None
       | Object None s => message = s /\ printable = None
       | Null | Undefined =>
           Error message printable = TypeError_reading err "toPrintable"
       end.
Proof.
  unfold parseTelegramError, throw.
  destruct err as [m [p |] | [p |] s | |]; cbn; eauto;
    do 2 eexists; repeat split; reflexivity.
Qed.

(** C8. When [sendCode] fails in [sendTelegramCode], what reaches the caller
    is an instance of [Error] with a message, whatever was thrown: the
    thrown value itself when it is an [Error], otherwise a new [Error] whose
    message is what [toPrintable()] of the value returns, or [toString()]
    when it has no such method; for [null] and [undefined] it is the
    [TypeError] of reading [toPrintable]. *)
Theorem sendTelegramCode_normalizes (phone status : string) (err : thrown) (st : state) :
  authenticated co (this st) = false ->
  checkPhone co (puppet_of co (this st)) phone = Return status ->
  (status =? "unregistered")%string = false ->
  (status =? "invalid")%string = false ->
  sendCode co (puppet_of co (this st)) phone = Throw err ->
  exists message printable,
    fst (sendTelegramCode co phone st) = Throw (Error message printable)
    /\ instanceof_Error (Error message printable) = true
    /\ match err with
       | Error m p => message = m /\ printable = p
       | Object (Some p) _ => message = p /\ printable = None
       | Object None s => message = s /\ printable = None
       | Null | Undefined =>
           Error message printable = TypeError_reading err "toPrintable"
       end.
Proof.
  intros Hauth Hphone Hunreg Hinv Hsend.
  unfold sendTelegramCode, bind at 1, get_this. cbn.
  unfold authenticated in Hauth. rewrite Hauth.
  unfold bind at 1. rewrite telegramPuppet_run.
  unfold bind at 1, call at 1. cbn. rewrite Hphone, Hunreg, Hinv.
  unfold try_catch, bind at 1. rewrite telegramPuppet_run.
  unfold bind at 1, call at 1. cbn.
  rewrite puppet_of_with_puppet, Hsend.
  match goal with
  | |- context [parseTelegramError err ?s] =>
      destruct (parseTelegramError_throws_Error (A := Remote.sentCode) err s)
        as (message & printable & Hparse & Hshape)
  end.
  exists message, printable. rewrite Hparse. auto.
Qed.

Lemma signInToTelegram_run (phoneCode : string) (st : state) :
  truthy (phoneNumber (this st)) = true ->
  truthy (phoneCodeHash (this st)) = true ->
  let u := this st in
  let attempt := Call_signIn (phoneNumber u) (phoneCodeHash u) phoneCode in
  signInToTelegram co phoneCode st
  = match signIn co (puppet_of co u) (phoneNumber u) (phoneCodeHash u) phoneCode with
    | Return result =>
        let u' := with_phoneCodeHash None (with_puppet co u) in
        (match putUser co u' with
         | Return _ => Return result
         | Throw err => Throw err
         end,
         after [attempt; Call_putUser u'] u' st)
    | Throw err => (Throw err, after [attempt] (with_puppet co u) st)
    end.
Proof.
  intros Hnumber Hhash. cbv zeta.
  destruct (with_puppet_frame (this st)) as (_ & _ & Hpn & Hph & _).
  unfold signInToTelegram, save, bind, get_this, set_this, call, ret, throw, after.
  rewrite Hnumber, Hhash. cbn. rewrite telegramPuppet_run. cbn. rewrite Hpn, Hph.
  destruct (signIn co (puppet_of co (this st)) (phoneNumber (this st))
              (phoneCodeHash (this st)) phoneCode) as [result | err]; cbn.
  - rewrite <- app_assoc. cbn. destruct (putUser co _); reflexivity.
  - reflexivity.
Qed.

(** C4, as the code has it. For a user whose [phoneNumber] and
    [phoneCodeHash] are set: when [signIn] returns a result,
    [signInToTelegram] clears [phoneCodeHash], hands the user to
    [app.putUser] and, when that succeeds, returns the result; when
    [signIn] fails, the failure reaches the caller, [phoneCodeHash] and
    [phoneNumber] are as before and [app.putUser] is not called. *)
Theorem signInToTelegram_outcome (phoneCode : string) (st : state) :
  truthy (phoneNumber (this st)) = true ->
  truthy (phoneCodeHash (this st)) = true ->
  let u := this st in
  let st' := snd (signInToTelegram co phoneCode st) in
  let attempt := Call_signIn (phoneNumber u) (phoneCodeHash u) phoneCode in
  match signIn co (puppet_of co u) (phoneNumber u) (phoneCodeHash u) phoneCode with
  | Return result =>
      phoneCodeHash (this st') = None
      /\ trace (env st') = (trace (env st) ++ [attempt; Call_putUser (this st')])%list
      /\ fst (signInToTelegram co phoneCode st)
         = match putUser co (this st') with
           | Return _ => Return result
           | Throw err => Throw err
           end
  | Throw err =>
      fst (signInToTelegram co phoneCode st) = Throw err
      /\ phoneCodeHash (this st') = phoneCodeHash u
      /\ phoneNumber (this st') = phoneNumber u
      /\ trace (env st') = (trace (env st) ++ [attempt])%list
  end.
Proof.
  intros Hnumber Hhash. cbv zeta.
  rewrite (signInToTelegram_run phoneCode st Hnumber Hhash). cbv zeta.
  destruct (with_puppet_frame (this st)) as (_ & _ & Hpn & Hph & _).
  destruct (signIn co (puppet_of co (this st)) (phoneNumber (this st))
              (phoneCodeHash (this st)) phoneCode) as [result | err]; cbn; auto.
Qed.

Lemma logOutFromTelegram_run (st : state) :
  let u := this st in
  logOutFromTelegram co st
  = match logOut co (puppet_of co u) with
    | Return _ =>
        let u' := with_puppetData None (with__telegramPuppet None (with_puppet co u)) in
        (match putUser co u' with
         | Return _ => Return true
         | Throw err => Throw err
         end,
         after [Call_logOut; Call_putUser u'] u' st)
    | Throw err => (Throw err, after [Call_logOut] (with_puppet co u) st)
    end.
Proof.
  cbv zeta.
  unfold logOutFromTelegram, save, bind, get_this, set_this, call, ret, after.
  rewrite telegramPuppet_run. cbn.
  destruct (logOut co (puppet_of co (this st))) as [[] | err]; cbn.
  - rewrite <- app_assoc. cbn. destruct (putUser co _); reflexivity.
  - reflexivity.
Qed.

(** C7, as the code has it. [logOutFromTelegram] leaves [userID],
    [whitelisted], [commandStatus], [contacts], [phoneNumber] and
    [phoneCodeHash] as they were; when the call to [logOut] of the session
    returns, the session object and [puppetData] are absent afterwards,
    the user is handed to [app.putUser], and the method returns [true]
    when that succeeds. *)
Theorem logOutFromTelegram_effect (st : state) :
  let u := this st in
  let st' := snd (logOutFromTelegram co st) in
  (userID (this st') = userID u
   /\ whitelisted (this st') = whitelisted u
   /\ commandStatus (this st') = commandStatus u
   /\ contacts (this st') = contacts u
   /\ phoneNumber (this st') = phoneNumber u
   /\ phoneCodeHash (this st') = phoneCodeHash u)
  /\ (logOut co (puppet_of co u) = Return tt ->
      _telegramPuppet (this st') = None
      /\ puppetData (this st') = None
      /\ trace (env st') = (trace (env st) ++ [Call_logOut; Call_putUser (this st')])%list
      /\ fst (logOutFromTelegram co st)
         = match putUser co (this st') with
           | Return _ => Return true
           | Throw err => Throw err
           end).
Proof.
  cbv zeta. rewrite logOutFromTelegram_run. cbv zeta.
  destruct (with_puppet_frame (this st)) as (Hid & Hwl & Hpn & Hph & Hcs & Hct).
  destruct (logOut co (puppet_of co (this st))) as [[] | err]; cbn.
  - auto 12.
  - split; [auto 10 | discriminate].
Qed.

(** *** Synchronisation of the contacts *)

Lemma syncContacts_loop_run (users : list Remote.user) (fresh : list TelegramUser.t)
    (u : MatrixUser) :
  refreshed co (puppet_of co u) users fresh ->
  forall w : world,
  exists calls,
    syncContacts_loop co users {| this := with_puppet co u; env := w |}
    = (Return fresh,
       after calls (with_puppet co u) {| this := with_puppet co u; env := w |})
    /\ persisted calls = [].
Proof.
  induction 1 as [| contact rest telegramUser updated l Hget Hupd _ IH]; intros w.
  - exists []. unfold after. cbn. rewrite app_nil_r. destruct w; auto.
  - cbn [syncContacts_loop]. unfold bind, call, ret.
    rewrite Hget. cbn. rewrite telegramPuppet_run. cbn.
    rewrite puppet_of_with_puppet, with_puppet_idem, Hupd.
    match goal with
    | |- context [syncContacts_loop co rest {| this := _; env := ?w' |}] =>
        destruct (IH w') as (calls & Hrun & Hnone)
    end.
    exists (Call_getTelegramUser (Remote.user_id contact)
            :: Call_TelegramUser_updateInfo telegramUser contact true :: calls).
    rewrite Hrun. unfold after. cbn. rewrite <- !app_assoc. cbn. auto.
Qed.

Lemma syncContacts_run (st : state) (answer : Remote.contacts) :
  let u := this st in
  let fetch := Call_client "contacts.getContacts" (Some (contacts_hash co u)) in
  client_getContacts co (puppet_of co u) (contacts_hash co u) = Return answer ->
  syncContacts co st
  = if (Remote.contacts_tag answer =? "contacts.contactsNotModified")%string
    then (Return false, after [fetch] (with_puppet co u) st)
    else
      match syncContacts_loop co (Remote.users answer)
              (after [fetch] (with_puppet co u) st) with
      | (Return users, st1) =>
          let u' := with_contacts users (this st1) in
          (match putUser co u' with
           | Return _ => Return true
           | Throw err => Throw err
           end,
           after [Call_putUser u'] u' st1)
      | (Throw err, st1) => (Throw err, st1)
      end.
Proof.
  cbv zeta. intros Hfetch.
  destruct (with_puppet_frame (this st)) as (_ & _ & _ & _ & _ & Hct).
  unfold syncContacts, bind at 1. rewrite telegramPuppet_run.
  unfold bind at 1, contactIDs, bind at 1, get_this, ret. cbn.
  rewrite Hct. fold (contacts_hash co (this st)).
  rewrite Hfetch.
  destruct (Remote.contacts_tag answer =? "contacts.contactsNotModified")%string.
  - reflexivity.
  - unfold bind at 1, after.
    destruct (syncContacts_loop co (Remote.users answer) _) as [[users | err] st1];
      [| reflexivity].
    unfold bind, set_this, save, get_this, call, ret. cbn.
    destruct (putUser co _); reflexivity.
Qed.

(** C1. When the answer to [contacts.getContacts] has the tag
    "contacts.contactsNotModified", [syncContacts] returns [false], the
    contacts are the same list as before and the only call made is the
    remote fetch. For any other answer whose users are refreshed by
    [app.getTelegramUser] and [updateInfo] and for which [app.putUser]
    succeeds, the contacts become the refreshed users in the order of the
    answer, the user is handed to [app.putUser] last, and the method
    returns [true]. *)
Theorem syncContacts_outcome (st : state) (answer : Remote.contacts) :
  let u := this st in
  let st' := snd (syncContacts co st) in
  let fetch := Call_client "contacts.getContacts" (Some (contacts_hash co u)) in
  client_getContacts co (puppet_of co u) (contacts_hash co u) = Return answer ->
  (Remote.contacts_tag answer = "contacts.contactsNotModified" ->
   fst (syncContacts co st) = Return false
   /\ contacts (this st') = contacts u
   /\ trace (env st') = (trace (env st) ++ [fetch])%list)
  /\ (Remote.contacts_tag answer <> "contacts.contactsNotModified" ->
      forall fresh : list TelegramUser.t,
        refreshed co (puppet_of co u) (Remote.users answer) fresh ->
        putUser co (with_contacts fresh (with_puppet co u)) = Return tt ->
        fst (syncContacts co st) = Return true
        /\ contacts (this st') = fresh
        /\ exists calls,
            trace (env st')
            = (trace (env st) ++ fetch :: calls ++ [Call_putUser (this st')])%list
            /\ persisted calls = []).
Proof.
  cbv zeta. intros Hfetch. rewrite (syncContacts_run st Hfetch). cbv zeta.
  destruct (with_puppet_frame (this st)) as (_ & _ & _ & _ & _ & Hct).
  split.
  - intros Htag. rewrite Htag. cbn. auto.
  - intros Htag fresh Hfresh Hput.
    destruct (String.eqb_spec (Remote.contacts_tag answer)
                "contacts.contactsNotModified") as [E | _]; [contradiction |].
    unfold after.
    match goal with
    | |- context [syncContacts_loop co _ {| this := _; env := ?w' |}] =>
        destruct (syncContacts_loop_run (this st) Hfresh w') as (calls & Hrun & Hnone)
    end.
    rewrite Hrun. unfold after. cbn. rewrite Hput. cbn. repeat split; trivial.
    exists calls. rewrite <- !app_assoc. cbn. auto.
Qed.

(** *** Synchronisation of the dialogs *)

Lemma syncDialogs_body_run (createRooms : bool) (dialog : Remote.chat)
    (changed : bool) (st : state) :
  let u := this st in
  let v := with_puppet co u in
  let lookup := Call_getPortalByPeer (peer_of dialog) in
  syncDialogs_body co createRooms dialog changed st
  = match getPortalByPeer co (peer_of dialog) with
    | Throw err => (Throw err, after [lookup] u st)
    | Return portal =>
        match Portal_updateInfo co portal (puppet_of co u) dialog with
        | Throw err => (Throw err, after [lookup; Call_Portal_updateInfo portal dialog] v st)
        | Return updated =>
            (match room_failure co createRooms portal v with
             | Some type_error => Throw type_error
             | None => Return (if updated then true else changed)
             end,
             after ([lookup; Call_Portal_updateInfo portal dialog]
                    ++ room_calls co createRooms portal v) v st)
        end
    end.
Proof.
  cbv zeta. unfold syncDialogs_body, room_calls, room_failure, after.
  fold (peer_of dialog).
  unfold bind at 1, call at 1. cbn.
  destruct (getPortalByPeer co (peer_of dialog)) as [portal | err];
    [| reflexivity].
  unfold bind at 1. rewrite telegramPuppet_run.
  unfold bind at 1, call at 1. cbn.
  destruct (Portal_updateInfo co portal (puppet_of co (this st)) dialog)
    as [updated | err]; [| now rewrite <- app_assoc].
  destruct (with_puppet_frame (this st)) as (Hid & _).
  destruct createRooms.
  - unfold bind at 1, try_catch, bind at 1. rewrite telegramPuppet_run.
    unfold bind, get_this, call, console_error, get, ret. cbn.
    rewrite puppet_of_with_puppet, with_puppet_idem.
    destruct (createMatrixRoom co portal (puppet_of co (this st))
                [userID (with_puppet co (this st))]) as [[] | err]; cbn;
      [| destruct (is_nullish err); cbn]; rewrite <- !app_assoc; reflexivity.
  - unfold bind, ret. cbn. rewrite <- app_assoc. cbn. reflexivity.
Qed.

Lemma syncDialogs_run (options : option bool) (st : state) :
  let createRooms := match options with Some b => b | None => true end in
  let st1 := after [Call_client "messages.getDialogs" None]
               (with_puppet co (this st)) st in
  syncDialogs co options st
  = match client_getDialogs co (puppet_of co (this st)) with
    | Return dialogs =>
        syncDialogs_loop co createRooms (Remote.chats dialogs) false st1
    | Throw err => (Throw err, st1)
    end.
Proof.
  cbv zeta. unfold syncDialogs, bind at 1. rewrite telegramPuppet_run.
  unfold bind, call, after. cbn.
  destruct (client_getDialogs co (puppet_of co (this st))); reflexivity.
Qed.

Lemma without_console_app (l1 l2 : list (event TelegramPuppet PuppetData Portal)) :
  without_console (l1 ++ l2) = (without_console l1 ++ without_console l2)%list.
Proof. apply filter_app. Qed.

Lemma without_console_room_calls
    (room : Portal -> TelegramPuppet -> list string -> outcome unit)
    (createRooms : bool) (portal : Portal) (u : MatrixUser) :
  without_console (room_calls (with_createMatrixRoom room co) createRooms portal u)
  = if createRooms then [Call_createMatrixRoom portal [userID u]] else [].
Proof.
  unfold room_calls. destruct createRooms; [| reflexivity]. cbn.
  destruct (room portal _ _) as [[] | err]; [| destruct (is_nullish err)]; reflexivity.
Qed.

End Bridge.

Section RoomCreation.

Variable co : Collaborators.

(** Two bridges that differ by what [createMatrixRoom] does; neither
    rejects with [null] or [undefined]. *)
Variables room room' : Portal -> TelegramPuppet -> list string -> outcome unit.

Hypothesis room_handled :
  forall portal puppet invite, rejects_nullish (room portal puppet invite) = false.
Hypothesis room'_handled :
  forall portal puppet invite, rejects_nullish (room' portal puppet invite) = false.

Lemma room_failure_handled
    (f : Portal -> TelegramPuppet -> list string -> outcome unit)
    (createRooms : bool) (portal : Portal) (u : MatrixUser) :
  (forall portal puppet invite, rejects_nullish (f portal puppet invite) = false) ->
  room_failure (with_createMatrixRoom f co) createRooms portal u = None.
Proof.
  intros Hf. unfold room_failure. destruct createRooms; [| reflexivity]. cbn.
  specialize (Hf portal (puppet_of (with_createMatrixRoom f co) u) [userID u]).
  destruct (f portal _ _) as [[] | err]; [reflexivity |].
  cbn in Hf. now rewrite Hf.
Qed.

Lemma syncDialogs_body_related (createRooms : bool) (dialog : Remote.chat)
    (changed : bool) (st1 st2 : state) :
  same_but_console st1 st2 ->
  fst (syncDialogs_body (with_createMatrixRoom room co) createRooms dialog changed st1)
  = fst (syncDialogs_body (with_createMatrixRoom room' co) createRooms dialog changed st2)
  /\ same_but_console
       (snd (syncDialogs_body (with_createMatrixRoom room co) createRooms dialog changed st1))
       (snd (syncDialogs_body (with_createMatrixRoom room' co) createRooms dialog changed st2)).
Proof.
  intros (Hthis & Htimers & Htrace).
  pose proof (syncDialogs_body_run (with_createMatrixRoom room co)
                createRooms dialog changed st1) as H1.
  pose proof (syncDialogs_body_run (with_createMatrixRoom room' co)
                createRooms dialog changed st2) as H2.
  cbv zeta in H1, H2. rewrite H1, H2. clear H1 H2.
  change (getPortalByPeer (with_createMatrixRoom room co)) with (getPortalByPeer co).
  change (getPortalByPeer (with_createMatrixRoom room' co)) with (getPortalByPeer co).
  change (Portal_updateInfo (with_createMatrixRoom room co)) with (Portal_updateInfo co).
  change (Portal_updateInfo (with_createMatrixRoom room' co)) with (Portal_updateInfo co).
  change (puppet_of (with_createMatrixRoom room co)) with (puppet_of co).
  change (puppet_of (with_createMatrixRoom room' co)) with (puppet_of co).
  change (with_puppet (with_createMatrixRoom room co)) with (with_puppet co).
  change (with_puppet (with_createMatrixRoom room' co)) with (with_puppet co).
  rewrite Hthis.
  unfold same_but_console, after.
  destruct (getPortalByPeer co (peer_of dialog)) as [portal | err]; cbn.
  - destruct (Portal_updateInfo co portal (puppet_of co (this st2)) dialog)
      as [updated | err]; rewrite ?room_failure_handled by assumption;
      cbn; repeat split; trivial;
      rewrite !without_console_app, Htrace; f_equal.
    match goal with
    | |- without_console (?a :: ?b :: ?rc) = without_console (?a :: ?b :: ?rc') =>
        change (without_console ([a; b] ++ rc) = without_console ([a; b] ++ rc'))
    end.
    now rewrite !without_console_app, !without_console_room_calls.
  - repeat split; trivial. now rewrite !without_console_app, Htrace.
Qed.

Lemma syncDialogs_loop_related (createRooms : bool) (chats : list Remote.chat) :
  forall (changed : bool) (st1 st2 : state),
    same_but_console st1 st2 ->
    fst (syncDialogs_loop (with_createMatrixRoom room co) createRooms chats changed st1)
    = fst (syncDialogs_loop (with_createMatrixRoom room' co) createRooms chats changed st2)
    /\ same_but_console
         (snd (syncDialogs_loop (with_createMatrixRoom room co) createRooms chats changed st1))
         (snd (syncDialogs_loop (with_createMatrixRoom room' co) createRooms chats changed st2)).
Proof.
  induction chats as [| dialog rest IH]; intros changed st1 st2 Hsame.
  - cbn. auto.
  - cbn [syncDialogs_loop]. destruct (skipped dialog); [now apply IH |].
    unfold bind.
    destruct (syncDialogs_body_related createRooms dialog changed Hsame) as (Hfst & Hsnd).
    destruct (syncDialogs_body (with_createMatrixRoom room co) _ _ _ st1) as [r1 st1'].
    destruct (syncDialogs_body (with_createMatrixRoom room' co) _ _ _ st2) as [r2 st2'].
    cbn in Hfst, Hsnd. subst r2. destruct r1 as [changed' | err]; [now apply IH | auto].
Qed.

Lemma same_but_console_refl (st : state) : same_but_console st st.
Proof. unfold same_but_console. auto. Qed.

(** X23. A room creation that fails with a value other than [null] and
    [undefined] is isolated. For two behaviours of [createMatrixRoom]
    that never reject with [null] or [undefined] (so a failing one and the
    one that always succeeds), [syncDialogs] gives the same outcome (the
    same [changed]), leaves the same user and makes the same calls to the
    collaborators, up to the lines written to the console. And when the
    room creation of a conversation fails so, the value thrown and its
    stack are written to the console and the loop goes on with the rest of
    the conversations, with the flag it has when the creation succeeds. *)
Theorem syncDialogs_room_failure_isolated (options : option bool) (st : state) :
  (fst (syncDialogs (with_createMatrixRoom room co) options st)
   = fst (syncDialogs (with_createMatrixRoom room' co) options st)
   /\ same_but_console
        (snd (syncDialogs (with_createMatrixRoom room co) options st))
        (snd (syncDialogs (with_createMatrixRoom room' co) options st)))
  /\ (forall (dialog : Remote.chat) (rest : list Remote.chat)
             (changed updated : bool) (portal : Portal) (err : thrown),
         let u := with_puppet co (this st) in
         skipped dialog = false ->
         getPortalByPeer co (peer_of dialog) = Return portal ->
         Portal_updateInfo co portal (puppet_of co u) dialog = Return updated ->
         room portal (puppet_of co u) [userID u] = Throw err ->
         syncDialogs_loop (with_createMatrixRoom room co) true (dialog :: rest)
           changed st
         = syncDialogs_loop (with_createMatrixRoom room co) true rest
             (if updated then true else changed)
             (after [Call_getPortalByPeer (peer_of dialog);
                     Call_Portal_updateInfo portal dialog;
                     Call_createMatrixRoom portal [userID u];
                     Call_console_error (Logged_value err);
                     Call_console_error (Logged_stack err)] u st)).
Proof.
  split.
  - pose proof (syncDialogs_run (with_createMatrixRoom room co) options st) as H1.
    pose proof (syncDialogs_run (with_createMatrixRoom room' co) options st) as H2.
    cbv zeta in H1, H2. rewrite H1, H2. clear H1 H2.
    change (puppet_of (with_createMatrixRoom room co)) with (puppet_of co).
    change (puppet_of (with_createMatrixRoom room' co)) with (puppet_of co).
    change (with_puppet (with_createMatrixRoom room co)) with (with_puppet co).
    change (with_puppet (with_createMatrixRoom room' co)) with (with_puppet co).
    change (client_getDialogs (with_createMatrixRoom room co)) with (client_getDialogs co).
    change (client_getDialogs (with_createMatrixRoom room' co)) with (client_getDialogs co).
    destruct (client_getDialogs co (puppet_of co (this st))) as [dialogs | err].
    + apply syncDialogs_loop_related, same_but_console_refl.
    + cbn. split; [reflexivity | apply same_but_console_refl].
  - intros dialog rest changed updated portal err u Hskip Hportal Hupdated Hroom.
    subst u. cbn [syncDialogs_loop]. rewrite Hskip. unfold bind.
    pose proof (syncDialogs_body_run (with_createMatrixRoom room co)
                  true dialog changed st) as H1.
    cbv zeta in H1. rewrite H1. clear H1.
    rewrite puppet_of_with_puppet in Hupdated, Hroom.
    cbn [getPortalByPeer Portal_updateInfo with_createMatrixRoom].
    change (puppet_of (with_createMatrixRoom room co)) with (puppet_of co).
    change (with_puppet (with_createMatrixRoom room co)) with (with_puppet co).
    rewrite Hportal, Hupdated.
    change (with_puppet (with_createMatrixRoom room co)) with (with_puppet co).
    rewrite room_failure_handled by assumption. unfold room_calls.
    cbn [createMatrixRoom with_createMatrixRoom].
    change (puppet_of (with_createMatrixRoom room co)) with (puppet_of co).
    rewrite puppet_of_with_puppet, Hroom.
    pose proof (room_handled portal (puppet_of co (this st))
                  [userID (with_puppet co (this st))]) as Hnot.
    rewrite Hroom in Hnot. cbn in Hnot. rewrite Hnot. reflexivity.
Qed.

End RoomCreation.

Section SkippedDialogs.

Variable co : Collaborators.

Lemma syncDialogs_loop_filter (createRooms : bool) (chats : list Remote.chat) :
  forall (changed : bool) (st : state),
    syncDialogs_loop co createRooms
      (filter (fun dialog => negb (skipped dialog)) chats) changed st
    = syncDialogs_loop co createRooms chats changed st.
Proof.
  induction chats as [| dialog rest IH]; intros changed st; [reflexivity |].
  cbn [filter syncDialogs_loop].
  destruct (skipped dialog) eqn:E; cbn [negb]; [apply IH |].
  cbn [syncDialogs_loop]. rewrite E. unfold bind.
  destruct (syncDialogs_body co createRooms dialog changed st) as [[changed' | err] st'];
    [apply IH | reflexivity].
Qed.

Lemma syncDialogs_loop_other_answer
    (f : TelegramPuppet -> outcome Remote.dialogs)
    (createRooms : bool) (chats : list Remote.chat) :
  forall (changed : bool) (st : state),
    syncDialogs_loop (with_client_getDialogs f co) createRooms chats changed st
    = syncDialogs_loop co createRooms chats changed st.
Proof.
  induction chats as [| dialog rest IH]; intros changed st; [reflexivity |].
  cbn [syncDialogs_loop]. destruct (skipped dialog); [apply IH |].
  unfold bind.
  change (syncDialogs_body (with_client_getDialogs f co))
    with (syncDialogs_body co).
  destruct (syncDialogs_body co createRooms dialog changed st) as [[changed' | err] st'];
    [apply IH | reflexivity].
Qed.

(** C6. [syncDialogs] does what it does when the answer to
    [messages.getDialogs] has no conversation with the tag "chatForbidden"
    and no deactivated one: the same outcome (the same [changed]), the same
    user and the same calls, so none for those conversations. In the loop,
    such a conversation is passed over with the state and the flag as they
    are. *)
Theorem syncDialogs_skips_forbidden (options : option bool) (st : state) :
  syncDialogs co options st
  = syncDialogs
      (with_client_getDialogs
         (fun puppet => without_skipped (client_getDialogs co puppet)) co)
      options st
  /\ (forall (createRooms : bool) (dialog : Remote.chat) (rest : list Remote.chat)
             (changed : bool) (st0 : state),
         skipped dialog = true ->
         syncDialogs_loop co createRooms (dialog :: rest) changed st0
         = syncDialogs_loop co createRooms rest changed st0)
  /\ (forall dialog : Remote.chat,
         skipped dialog = true
         <-> Remote.chat_tag dialog = "chatForbidden" \/ Remote.deactivated dialog = true).
Proof.
  split; [| split].
  - pose proof (syncDialogs_run co options st) as H1.
    pose proof (syncDialogs_run
                  (with_client_getDialogs
                     (fun puppet => without_skipped (client_getDialogs co puppet)) co)
                  options st) as H2.
    cbv zeta in H1, H2. rewrite H1, H2. clear H1 H2.
    change (puppet_of (with_client_getDialogs _ co)) with (puppet_of co).
    change (with_puppet (with_client_getDialogs _ co)) with (with_puppet co).
    cbn [client_getDialogs with_client_getDialogs].
    destruct (client_getDialogs co (puppet_of co (this st))) as [dialogs | err]; cbn;
      [| reflexivity].
    now rewrite syncDialogs_loop_other_answer, syncDialogs_loop_filter.
  - intros createRooms dialog rest changed st0 H. cbn [syncDialogs_loop].
    now rewrite H.
  - intros dialog. unfold skipped. rewrite orb_true_iff, String.eqb_eq. reflexivity.
Qed.

End SkippedDialogs.

(** *** Search in the contacts *)

Section Search.

Variable co : Collaborators.

Lemma by_similarity_le (a b : SearchResult) :
  Qle_bool (by_similarity a b) 0 = true <-> ranked_before a b.
Proof.
  unfold by_similarity, ranked_before. rewrite Qle_bool_iff.
  split; intros H.
  - apply Qplus_le_l with (z := (- similarity a)%Q). ring_simplify.
    setoid_replace (similarity b + -1 * similarity a)%Q
      with (similarity b - similarity a)%Q by ring.
    exact H.
  - apply Qplus_le_l with (z := similarity a). ring_simplify. exact H.
Qed.

Lemma sort_insert_In (x z : SearchResult) (l : list SearchResult) :
  In z (sort_insert by_similarity x l) <-> z = x \/ In z l.
Proof.
  induction l as [| y rest IH]; cbn.
  - intuition.
  - destruct (Qle_bool (by_similarity x y) 0); cbn; [| rewrite IH]; intuition.
Qed.

Lemma sort_In (z : SearchResult) (l : list SearchResult) :
  In z (sort by_similarity l) <-> In z l.
Proof.
  induction l as [| x rest IH]; cbn; [reflexivity |].
  rewrite sort_insert_In, IH. intuition.
Qed.

Lemma sort_insert_sorted (x : SearchResult) (l : list SearchResult) :
  StronglySorted ranked_before l ->
  StronglySorted ranked_before (sort_insert by_similarity x l).
Proof.
  induction 1 as [| y rest Hsorted IH Hall]; cbn.
  - constructor; [constructor | constructor].
  - destruct (Qle_bool (by_similarity x y) 0) eqn:E.
    + apply by_similarity_le in E.
      constructor; [constructor; assumption |].
      constructor; [assumption |].
      rewrite Forall_forall in Hall |- *. intros z Hz.
      unfold ranked_before in *. eapply Qle_trans; [apply (Hall z Hz) | exact E].
    + constructor; [assumption |].
      rewrite Forall_forall in Hall |- *. intros z Hz.
      apply sort_insert_In in Hz. destruct Hz as [-> | Hz]; [| now apply Hall].
      unfold ranked_before.
      destruct (Qlt_le_dec (similarity y) (similarity x)) as [Hlt | Hle]; [| exact Hle].
      assert (Hrb : ranked_before x y) by (apply Qlt_le_weak; exact Hlt).
      apply by_similarity_le in Hrb. congruence.
Qed.

Lemma sort_sorted (l : list SearchResult) :
  StronglySorted ranked_before (sort by_similarity l).
Proof.
  induction l as [| x rest IH]; cbn; [constructor | now apply sort_insert_sorted].
Qed.

Lemma firstn_In {A} (n : nat) (l : list A) (z : A) :
  In z (firstn n l) -> In z l.
Proof.
  revert n. induction l as [| x rest IH]; intros [| n]; cbn; try tauto.
  intros [-> | H]; [now left | right; now apply (IH n)].
Qed.

Lemma firstn_sorted (n : nat) (l : list SearchResult) :
  StronglySorted ranked_before l -> StronglySorted ranked_before (firstn n l).
Proof.
  intros H. revert n. induction H as [| x rest Hsorted IH Hall]; intros [| n]; cbn;
    try constructor; auto.
  rewrite Forall_forall in Hall |- *. intros z Hz. apply Hall.
  eapply firstn_In; exact Hz.
Qed.

Lemma Math_max_spec (a b c : Q) :
  (a <= Math_max a b c /\ b <= Math_max a b c /\ c <= Math_max a b c)%Q
  /\ (Math_max a b c = a \/ Math_max a b c = b \/ Math_max a b c = c).
Proof.
  unfold Math_max.
  destruct (Qle_bool a b) eqn:Eab.
  - apply Qle_bool_iff in Eab.
    destruct (Qle_bool b c) eqn:Ebc.
    + apply Qle_bool_iff in Ebc. repeat split; auto; lra.
    + assert (~ (b <= c)%Q) by (rewrite <- Qle_bool_iff; congruence).
      repeat split; auto; lra.
  - assert (~ (a <= b)%Q) by (rewrite <- Qle_bool_iff; congruence).
    destruct (Qle_bool a c) eqn:Eac.
    + apply Qle_bool_iff in Eac. repeat split; auto; lra.
    + assert (~ (a <= c)%Q) by (rewrite <- Qle_bool_iff; congruence).
      repeat split; auto; lra.
Qed.

Lemma Math_round_nearest (x : Q) : nearest_integer x (Math_round x).
Proof.
  unfold nearest_integer, Math_round.
  pose proof (Qfloor_le (x + (1 # 2))) as Hle.
  pose proof (Qlt_floor (x + (1 # 2))) as Hlt.
  rewrite inject_Z_plus in Hlt. change (inject_Z 1) with 1%Q in Hlt.
  split; [eauto | split; lra].
Qed.

Lemma searchContacts_loop_In (query : string) (threshold : Q)
    (l : list TelegramUser.t) (r : SearchResult) :
  In r (searchContacts_loop co query threshold l) ->
  In (contact r) l /\ r = result_of co query (contact r) /\ (threshold <= similarity r)%Q.
Proof.
  induction l as [| c rest IH]; cbn; [tauto |].
  destruct (Qle_bool threshold (contact_similarity co query c)) eqn:E.
  - intros [<- | H].
    + apply Qle_bool_iff in E. cbn. auto.
    + destruct (IH H) as (? & ? & ?). auto.
  - intros H. destruct (IH H) as (? & ? & ?). auto.
Qed.

Lemma searchContacts_run (query : string) (maxResults : option nat)
    (minSimilarity : option Q) (st : state) :
  searchContacts co query maxResults minSimilarity st
  = (Return
       (firstn (match maxResults with Some n => n | None => 5%nat end)
          (sort by_similarity
             (searchContacts_loop co query
                (match minSimilarity with Some q => q | None => (45 # 100)%Q end)
                (contacts (this st))))),
     st).
Proof. reflexivity. Qed.

Lemma scores_in_range (query : string) (c : TelegramUser.t) :
  (forall a b : string, (0 <= compareTwoStrings co a b <= 1)%Q) ->
  (0 <= displaynameSimilarity co query c <= 1)%Q
  /\ (0 <= usernameSimilarity co query c <= 1)%Q
  /\ (0 <= numberSimilarity co query c <= 1)%Q.
Proof.
  intros Hrange.
  assert (H01 : (0 <= 0 <= 1)%Q) by (split; discriminate).
  unfold displaynameSimilarity, usernameSimilarity, numberSimilarity.
  repeat split;
    repeat match goal with
           | |- context [if ?b then _ else _] => destruct b
           | |- context [match ?o with Some _ => _ | None => _ end] => destruct o
           end;
    try apply Hrange; apply H01.
Qed.

(** C3, as the code has it. [searchContacts] returns, without failing
    and with the user as it was, a list of results that has at most
    [maxResults] entries (5 by default) and is sorted by similarity,
    descending. Each result is for a contact of the user; its similarity is
    the largest of the three scores of that contact (name, username, phone
    number), each of which is between 0 and 1 when [compareTwoStrings] is;
    it is at least [minSimilarity] (0.45 by default); and its [match] is
    [Math.round(similarity * 1000) / 10] in double arithmetic: the double
    nearest to a tenth of the integer nearest to the double product of the
    similarity by 1000. *)
Theorem searchContacts_ranked (query : string) (maxResults : option nat)
    (minSimilarity : option Q) (st : state) :
  (forall a b : string, (0 <= compareTwoStrings co a b <= 1)%Q) ->
  let limit := match maxResults with Some n => n | None => 5%nat end in
  let threshold := match minSimilarity with Some q => q | None => (45 # 100)%Q end in
  exists results : list SearchResult,
    searchContacts co query maxResults minSimilarity st = (Return results, st)
    /\ (List.length results <= limit)%nat
    /\ StronglySorted ranked_before results
    /\ Forall
         (fun r =>
            let name := displaynameSimilarity co query (contact r) in
            let user := usernameSimilarity co query (contact r) in
            let number := numberSimilarity co query (contact r) in
            let product := Double.mul (similarity r) 1000 in
            In (contact r) (contacts (this st))
            /\ (threshold <= similarity r)%Q
            /\ (0 <= name <= 1 /\ 0 <= user <= 1 /\ 0 <= number <= 1)%Q
            /\ (name <= similarity r /\ user <= similarity r /\ number <= similarity r)%Q
            /\ (similarity r = name \/ similarity r = user \/ similarity r = number)
            /\ match_ r = Double.div (Math_round product) 10
            /\ nearest_integer product (Math_round product))
         results.
Proof.
  intros Hrange limit threshold. rewrite searchContacts_run.
  fold limit threshold. eexists. split; [reflexivity |].
  split; [apply firstn_le_length |].
  split; [apply firstn_sorted, sort_sorted |].
  rewrite Forall_forall. intros r Hr.
  apply firstn_In, sort_In, searchContacts_loop_In in Hr.
  destruct Hr as (Hin & Heq & Hthreshold).
  assert (Hsim : similarity r = contact_similarity co query (contact r))
    by (rewrite Heq at 1; reflexivity).
  assert (Hmatch : match_ r
                   = Double.div (Math_round (Double.mul (similarity r) 1000)) 10)
    by (rewrite Heq at 1; cbn [match_ result_of]; now rewrite <- Hsim).
  cbv zeta.
  destruct (Math_max_spec (displaynameSimilarity co query (contact r))
              (usernameSimilarity co query (contact r))
              (numberSimilarity co query (contact r))) as (Hge & Hone).
  fold (contact_similarity co query (contact r)) in Hge, Hone.
  rewrite <- Hsim in Hge, Hone.
  repeat split; try apply (scores_in_range query (contact r) Hrange);
    try apply Hge; trivial; apply Math_round_nearest.
Qed.

End Search.

(** *** The setter of [contactIDs] *)

Lemma set_contactIDs_run (list : option (list Z)) (st : state) :
  set_contactIDs list st
  = (Return tt,
     {| this := this st;
        env := {| trace := trace (env st);
                  timers := (timers (env st) ++ [Timer_contactIDs list])%list |} |}).
Proof. reflexivity. Qed.

(** ** Further properties of the methods *)

Section Login.

Variable co : Collaborators.

Lemma with_puppet_same_profile (u : MatrixUser) : same_profile u (with_puppet co u).
Proof.
  unfold same_profile, with_puppet. destruct (_telegramPuppet u); cbn; auto 10.
Qed.

Lemma same_profile_refl (u : MatrixUser) : same_profile u u.
Proof. unfold same_profile. auto 10. Qed.

Lemma with_puppet_session (u : MatrixUser) :
  _telegramPuppet (with_puppet co u) = Some (puppet_of co u).
Proof.
  unfold with_puppet, puppet_of. destruct (_telegramPuppet u) eqn:E; cbn; [exact E | reflexivity].
Qed.

(** X1. The [telegramPuppet] getter is a lazy singleton: the first access
    answers the session object of the user, or builds one from [puppetData]
    (from the empty subentry when there is none) and keeps it; it changes
    nothing else of the user and makes no call. A second access answers the
    same object and changes nothing. *)
Theorem telegramPuppet_singleton (st : state) :
  let st1 := snd (telegramPuppet co st) in
  fst (telegramPuppet co st) = Return (puppet_of co (this st))
  /\ _telegramPuppet (this st1) = Some (puppet_of co (this st))
  /\ same_profile (this st) (this st1)
  /\ env st1 = env st
  /\ telegramPuppet co st1 = (Return (puppet_of co (this st)), st1)
  /\ match _telegramPuppet (this st) with
     | Some puppet => puppet_of co (this st) = puppet /\ st1 = st
     | None =>
         puppet_of co (this st)
         = fromSubentry co (this st)
             (match puppetData (this st) with
              | Some data => data
              | None => empty_subentry co
              end)
     end.
Proof.
  cbv zeta. rewrite !telegramPuppet_run. cbn.
  rewrite with_puppet_session, puppet_of_with_puppet, with_puppet_idem.
  repeat split; try apply with_puppet_same_profile.
  unfold puppet_of, with_puppet.
  destruct (_telegramPuppet (this st)); [split; [reflexivity | apply state_eta] | reflexivity].
Qed.

(** X2. [signInToTelegram] without a phone number (absent or empty)
    throws "Phone number not set", and with a phone number but without a
    code hash it throws "Phone code not sent"; in both cases the user is as
    before, no session object is built and no call is made. *)
Theorem signInToTelegram_requires_handshake (phoneCode : string) (st : state) :
  (truthy (phoneNumber (this st)) = false ->
   signInToTelegram co phoneCode st = (Throw (new_Error "Phone number not set"), st))
  /\ (truthy (phoneNumber (this st)) = true ->
      truthy (phoneCodeHash (this st)) = false ->
      signInToTelegram co phoneCode st = (Throw (new_Error "Phone code not sent"), st)).
Proof.
  unfold signInToTelegram, bind, get_this, throw. cbn. split.
  - intros ->. reflexivity.
  - intros -> ->. reflexivity.
Qed.

(** X3. A code is redeemed once: when [signIn] has returned a result for a
    user whose phone number and code hash were set, a second
    [signInToTelegram] throws "Phone code not sent" without reaching the
    session, whether the user could be saved or not. *)
Theorem signInToTelegram_once (phoneCode again : string) (result : SignInResult)
    (st : state) :
  truthy (phoneNumber (this st)) = true ->
  truthy (phoneCodeHash (this st)) = true ->
  signIn co (puppet_of co (this st)) (phoneNumber (this st))
    (phoneCodeHash (this st)) phoneCode = Return result ->
  let st1 := snd (signInToTelegram co phoneCode st) in
  signInToTelegram co again st1 = (Throw (new_Error "Phone code not sent"), st1).
Proof.
  intros Hnumber Hhash Hsign. cbv zeta.
  rewrite (signInToTelegram_run co phoneCode st Hnumber Hhash). cbv zeta.
  rewrite Hsign. cbn [snd].
  destruct (with_puppet_frame co (this st)) as (_ & _ & Hpn & _).
  unfold signInToTelegram, bind, get_this, throw, after. cbn.
  rewrite Hpn, Hnumber. reflexivity.
Qed.

Lemma sendTelegramCode_run (phone : string) (st : state) :
  authenticated co (this st) = false ->
  let u := this st in
  let v := with_puppet co u in
  let puppet := puppet_of co u in
  let check := Call_checkPhone phone in
  let send := Call_sendCode phone in
  sendTelegramCode co phone st
  = match checkPhone co puppet phone with
    | Throw err => (Throw err, after [check] v st)
    | Return status =>
        if (status =? "unregistered")%string
        then (Throw (new_Error
                       "That number has not been registered. Please register it first."),
              after [check] v st)
        else if (status =? "invalid")%string
        then (Throw (new_Error "Invalid phone number."), after [check] v st)
        else
          match sendCode co puppet phone with
          | Throw err => parseTelegramError err (after [check; send] v st)
          | Return result =>
              let v' := with_phoneCodeHash (Remote.phone_code_hash result)
                          (with_phoneNumber (Some phone) v) in
              match putUser co v' with
              | Return _ => (Return result, after [check; send; Call_putUser v'] v' st)
              | Throw err =>
                  parseTelegramError err (after [check; send; Call_putUser v'] v' st)
              end
          end
    end.
Proof.
  intros Hauth. cbv zeta. unfold authenticated in Hauth.
  unfold sendTelegramCode, bind at 1, get_this. cbn. rewrite Hauth.
  unfold bind at 1. rewrite telegramPuppet_run.
  unfold bind at 1, call at 1, after. cbn.
  destruct (checkPhone co (puppet_of co (this st)) phone) as [status | err];
    [| reflexivity].
  destruct (status =? "unregistered")%string; [reflexivity |].
  destruct (status =? "invalid")%string; [reflexivity |].
  unfold try_catch, bind at 1. rewrite telegramPuppet_run.
  unfold bind at 1, call at 1. cbn. rewrite puppet_of_with_puppet, with_puppet_idem.
  destruct (sendCode co (puppet_of co (this st)) phone) as [result | err]; cbn;
    [| now rewrite <- app_assoc].
  unfold bind, set_this, save, get_this, call, ret. cbn.
  rewrite <- !app_assoc. cbn.
  destruct (putUser co _); reflexivity.
Qed.

(** X4. [sendTelegramCode] for a number that the session reports as
    "unregistered" or "invalid" throws the error of that case; the session
    is asked about the number and nothing else: no code is sent, nothing is
    saved, and the user is as before but for its session object. *)
Theorem sendTelegramCode_rejects_phone (phone status : string) (st : state) :
  authenticated co (this st) = false ->
  checkPhone co (puppet_of co (this st)) phone = Return status ->
  ((status =? "unregistered") || (status =? "invalid"))%string = true ->
  let st' := snd (sendTelegramCode co phone st) in
  fst (sendTelegramCode co phone st)
  = Throw (new_Error
             (if (status =? "unregistered")%string
              then "That number has not been registered. Please register it first."
              else "Invalid phone number."))
  /\ same_profile (this st) (this st')
  /\ trace (env st') = (trace (env st) ++ [Call_checkPhone phone])%list.
Proof.
  intros Hauth Hcheck Hstatus. cbv zeta.
  rewrite (sendTelegramCode_run phone st Hauth). cbv zeta. rewrite Hcheck.
  destruct (status =? "unregistered")%string; cbn in Hstatus |- *.
  - repeat split; apply with_puppet_same_profile.
  - rewrite Hstatus. cbn. repeat split; apply with_puppet_same_profile.
Qed.

(** X5. When the session sends the code and the user can be saved,
    [sendTelegramCode] returns what [sendCode] returned, the user has the
    phone number and the [phone_code_hash] of the answer, every other field
    but the session object is as before, and the calls made are the check
    of the number, the sending and the saving of that user. *)
Theorem sendTelegramCode_stores_handshake (phone status : string)
    (result : Remote.sentCode) (st : state) :
  authenticated co (this st) = false ->
  checkPhone co (puppet_of co (this st)) phone = Return status ->
  ((status =? "unregistered") || (status =? "invalid"))%string = false ->
  sendCode co (puppet_of co (this st)) phone = Return result ->
  putUser co (with_phoneCodeHash (Remote.phone_code_hash result)
                (with_phoneNumber (Some phone) (with_puppet co (this st))))
  = Return tt ->
  let st' := snd (sendTelegramCode co phone st) in
  fst (sendTelegramCode co phone st) = Return result
  /\ phoneNumber (this st') = Some phone
  /\ phoneCodeHash (this st') = Remote.phone_code_hash result
  /\ (userID (this st') = userID (this st)
      /\ whitelisted (this st') = whitelisted (this st)
      /\ commandStatus (this st') = commandStatus (this st)
      /\ puppetData (this st') = puppetData (this st)
      /\ contacts (this st') = contacts (this st))
  /\ trace (env st')
     = (trace (env st)
        ++ [Call_checkPhone phone; Call_sendCode phone; Call_putUser (this st')])%list.
Proof.
  intros Hauth Hcheck Hstatus Hsend Hput. cbv zeta.
  apply orb_false_iff in Hstatus. destruct Hstatus as [Hunreg Hinv].
  rewrite (sendTelegramCode_run phone st Hauth). cbv zeta.
  rewrite Hcheck, Hunreg, Hinv, Hsend, Hput. cbn.
  destruct (with_puppet_same_profile (this st)) as (? & ? & ? & ? & ? & ? & ?).
  auto 10.
Qed.

(** X6. When the session fails to send the code, [sendTelegramCode]
    saves nothing and the user keeps the phone number and the code hash it
    had (every field but the session object is as before). *)
Theorem sendTelegramCode_failure_frame (phone status : string) (err : thrown)
    (st : state) :
  authenticated co (this st) = false ->
  checkPhone co (puppet_of co (this st)) phone = Return status ->
  ((status =? "unregistered") || (status =? "invalid"))%string = false ->
  sendCode co (puppet_of co (this st)) phone = Throw err ->
  let st' := snd (sendTelegramCode co phone st) in
  same_profile (this st) (this st')
  /\ trace (env st')
     = (trace (env st) ++ [Call_checkPhone phone; Call_sendCode phone])%list.
Proof.
  intros Hauth Hcheck Hstatus Hsend. cbv zeta.
  apply orb_false_iff in Hstatus. destruct Hstatus as [Hunreg Hinv].
  rewrite (sendTelegramCode_run phone st Hauth). cbv zeta.
  rewrite Hcheck, Hunreg, Hinv, Hsend.
  match goal with
  | |- context [parseTelegramError err ?s] =>
      destruct (parseTelegramError_throws_Error (A := Remote.sentCode) err s)
        as (message & printable & Hparse & _)
  end.
  rewrite Hparse. cbn. split; [apply with_puppet_same_profile | reflexivity].
Qed.

(** X7. When the code was sent but the user cannot be saved,
    [sendTelegramCode] fails with an instance of [Error] (the failure of
    [app.putUser] goes through [parseTelegramError] like a failure of the
    session), and the user in memory already has the new phone number and
    code hash. *)
Theorem sendTelegramCode_save_failure (phone status : string)
    (result : Remote.sentCode) (err : thrown) (st : state) :
  authenticated co (this st) = false ->
  checkPhone co (puppet_of co (this st)) phone = Return status ->
  ((status =? "unregistered") || (status =? "invalid"))%string = false ->
  sendCode co (puppet_of co (this st)) phone = Return result ->
  putUser co (with_phoneCodeHash (Remote.phone_code_hash result)
                (with_phoneNumber (Some phone) (with_puppet co (this st))))
  = Throw err ->
  let st' := snd (sendTelegramCode co phone st) in
  (exists message printable,
      fst (sendTelegramCode co phone st) = Throw (Error message printable)
      /\ match err with
         | Error m p => message = m /\ printable = p
         | Object (Some p) _ => message = p /\ printable = None
         | Object None s => message = s /\ printable = None
         | Null | Undefined =>
             Error message printable = TypeError_reading err "toPrintable"
         end)
  /\ phoneNumber (this st') = Some phone
  /\ phoneCodeHash (this st') = Remote.phone_code_hash result.
Proof.
  intros Hauth Hcheck Hstatus Hsend Hput. cbv zeta.
  apply orb_false_iff in Hstatus. destruct Hstatus as [Hunreg Hinv].
  rewrite (sendTelegramCode_run phone st Hauth). cbv zeta.
  rewrite Hcheck, Hunreg, Hinv, Hsend, Hput.
  match goal with
  | |- context [parseTelegramError err ?s] =>
      destruct (parseTelegramError_throws_Error (A := Remote.sentCode) err s)
        as (message & printable & Hparse & Hshape)
  end.
  rewrite Hparse. cbn. split; [exists message, printable |]; auto.
Qed.

(** X8. After a successful [sendTelegramCode] for a non-empty number whose
    answer carries a non-empty [phone_code_hash], [signInToTelegram] passes
    its checks and asks the session to sign in with exactly that number,
    that hash and the code given. *)
Theorem sendTelegramCode_then_signIn (phone status phoneCode : string)
    (result : Remote.sentCode) (st : state) :
  authenticated co (this st) = false ->
  checkPhone co (puppet_of co (this st)) phone = Return status ->
  ((status =? "unregistered") || (status =? "invalid"))%string = false ->
  sendCode co (puppet_of co (this st)) phone = Return result ->
  putUser co (with_phoneCodeHash (Remote.phone_code_hash result)
                (with_phoneNumber (Some phone) (with_puppet co (this st))))
  = Return tt ->
  truthy (Some phone) = true ->
  truthy (Remote.phone_code_hash result) = true ->
  let st1 := snd (sendTelegramCode co phone st) in
  let st2 := snd (signInToTelegram co phoneCode st1) in
  exists rest,
    trace (env st2)
    = (trace (env st1)
       ++ Call_signIn (Some phone) (Remote.phone_code_hash result) phoneCode :: rest)%list
    /\ fst (signInToTelegram co phoneCode st1)
       = match signIn co (puppet_of co (this st)) (Some phone)
                 (Remote.phone_code_hash result) phoneCode with
         | Return answer =>
             match putUser co (this st2) with
             | Return _ => Return answer
             | Throw err => Throw err
             end
         | Throw err => Throw err
         end.
Proof.
  intros Hauth Hcheck Hstatus Hsend Hput Hphone Hhash. cbv zeta.
  apply orb_false_iff in Hstatus. destruct Hstatus as [Hunreg Hinv].
  rewrite (sendTelegramCode_run phone st Hauth). cbv zeta.
  rewrite Hcheck, Hunreg, Hinv, Hsend, Hput. cbn [snd].
  match goal with
  | |- context [signInToTelegram co phoneCode ?s] =>
      pose proof (signInToTelegram_run co phoneCode s Hphone Hhash) as Hrun
  end.
  cbv zeta in Hrun. rewrite Hrun. clear Hrun.
  unfold after. cbn [this env trace timers].
  replace (puppet_of co _) with (puppet_of co (this st)).
  2:{ unfold puppet_of at 2. cbn. now rewrite with_puppet_session. }
  cbn [phoneNumber phoneCodeHash with_phoneCodeHash with_phoneNumber].
  destruct (signIn co (puppet_of co (this st)) (Some phone)
              (Remote.phone_code_hash result) phoneCode) as [answer | err]; cbn.
  - eexists. split; reflexivity.
  - eexists. split; reflexivity.
Qed.

Section Password.

Variable CheckPasswordResult : Type.
Variable check : TelegramPuppet -> string -> outcome CheckPasswordResult.

Lemma checkPassword_run (password_hash : string) (st : state) :
  let v := with_puppet co (this st) in
  checkPassword co check password_hash st
  = match check (puppet_of co (this st)) password_hash with
    | Return result =>
        (match putUser co v with
         | Return _ => Return result
         | Throw err => Throw err
         end,
         after [Call_putUser v] v st)
    | Throw err => (Throw err, {| this := v; env := env st |})
    end.
Proof.
  cbv zeta. unfold checkPassword, bind at 1. rewrite telegramPuppet_run.
  unfold bind at 1. cbn.
  destruct (check (puppet_of co (this st)) password_hash) as [result | err];
    [| reflexivity].
  unfold bind, save, get_this, call, ret, after. cbn.
  destruct (putUser co _); reflexivity.
Qed.

(** X9. [checkPassword] hands the user to [app.putUser] exactly when the
    session's check returns, and then returns the session's answer if the
    saving succeeds; when the check fails, the failure reaches the caller and
    nothing is saved. In both cases the user is as before but for its
    session object. *)
Theorem checkPassword_saves_on_return (password_hash : string) (st : state) :
  let st' := snd (checkPassword co check password_hash st) in
  same_profile (this st) (this st')
  /\ match check (puppet_of co (this st)) password_hash with
     | Return result =>
         trace (env st') = (trace (env st) ++ [Call_putUser (this st')])%list
         /\ fst (checkPassword co check password_hash st)
            = match putUser co (this st') with
              | Return _ => Return result
              | Throw err => Throw err
              end
     | Throw err =>
         fst (checkPassword co check password_hash st) = Throw err
         /\ env st' = env st
     end.
Proof.
  cbv zeta. rewrite checkPassword_run. cbv zeta.
  destruct (check (puppet_of co (this st)) password_hash) as [result | err]; cbn;
    (split; [apply with_puppet_same_profile | auto]).
Qed.

End Password.

(** X10. After a logout whose [logOut] call returned, the entry made of
    the user carries no session data, making it changes nothing, and the
    user that [fromEntry] makes of that entry has no session object, no
    session data, and passes the logged-in check of [sendTelegramCode]. *)
Theorem logOutFromTelegram_then_toEntry (st : state) (w : world) :
  logOut co (puppet_of co (this st)) = Return tt ->
  let st1 := snd (logOutFromTelegram co st) in
  exists entry user w',
    toEntry co st1 = (Return entry, st1)
    /\ data_puppet (entry_data entry) = None
    /\ fromEntry co entry w = (Return user, w')
    /\ _telegramPuppet user = None
    /\ puppetData user = None
    /\ authenticated co user = false
    /\ authenticated co (this st1) = false.
Proof.
  intros Hout. cbv zeta. rewrite logOutFromTelegram_run. cbv zeta. rewrite Hout.
  cbn [snd]. unfold after.
  unfold toEntry, bind, get_this, set_this, contactIDs, ret. cbn.
  do 3 eexists. split; [reflexivity |]. cbn. split; [reflexivity |].
  unfold fromEntry. cbn. split; [reflexivity |]. cbn. auto.
Qed.

(** X11. When the call to [logOut] of the session throws,
    [logOutFromTelegram] fails with what was thrown; the user keeps its
    session object (the one the getter answered) and its session data, and
    nothing is saved. *)
Theorem logOutFromTelegram_failure (err : thrown) (st : state) :
  logOut co (puppet_of co (this st)) = Throw err ->
  let st' := snd (logOutFromTelegram co st) in
  fst (logOutFromTelegram co st) = Throw err
  /\ _telegramPuppet (this st') = Some (puppet_of co (this st))
  /\ same_profile (this st) (this st')
  /\ trace (env st') = (trace (env st) ++ [Call_logOut])%list.
Proof.
  intros Hout. cbv zeta. rewrite logOutFromTelegram_run. cbv zeta. rewrite Hout.
  cbn. repeat split; try apply with_puppet_same_profile. apply with_puppet_session.
Qed.

(** X12. [toEntry] makes no call. The [puppet] of the entry is the
    subentry of the session object when the user has one, which also
    becomes the [puppetData] of the user, and the [puppetData] of the user
    otherwise; no other field changes. Making the entry a second time gives
    the same entry and changes nothing. *)
Theorem toEntry_snapshot (st : state) :
  exists entry st1,
    toEntry co st = (Return entry, st1)
    /\ toEntry co st1 = (Return entry, st1)
    /\ env st1 = env st
    /\ data_puppet (entry_data entry) = puppetData (this st1)
    /\ puppetData (this st1)
       = match _telegramPuppet (this st) with
         | Some puppet => Some (toSubentry co puppet)
         | None => puppetData (this st)
         end
    /\ _telegramPuppet (this st1) = _telegramPuppet (this st)
    /\ userID (this st1) = userID (this st)
    /\ whitelisted (this st1) = whitelisted (this st)
    /\ phoneNumber (this st1) = phoneNumber (this st)
    /\ phoneCodeHash (this st1) = phoneCodeHash (this st)
    /\ commandStatus (this st1) = commandStatus (this st)
    /\ contacts (this st1) = contacts (this st).
Proof.
  unfold toEntry, bind, get_this, set_this, contactIDs, ret. cbn.
  destruct (_telegramPuppet (this st)) as [puppet |] eqn:E; cbn.
  - do 2 eexists. split; [reflexivity |]. cbn. rewrite E. cbn. auto 15.
  - do 2 eexists. split; [reflexivity |]. cbn. rewrite E. cbn. auto 15.
Qed.

(** X13. The user that [fromEntry] makes of an entry of type "matrix" has
    the id of the entry, the whitelist status that [app.checkWhitelist]
    gives for that id, no command status and, when it is returned, no
    contacts. When the entry has session data, the user has them and a
    session object built from them; otherwise it has neither. No call is
    made to a collaborator. *)
Theorem fromEntry_restores (entry : Entry) (w : world) :
  entry_type entry = "matrix" ->
  exists user w',
    fromEntry co entry w = (Return user, w')
    /\ userID user = entry_id entry
    /\ whitelisted user = checkWhitelist co (entry_id entry)
    /\ commandStatus user = None
    /\ contacts user = []
    /\ puppetData user = data_puppet (entry_data entry)
    /\ match data_puppet (entry_data entry) with
       | Some data =>
           exists u0, _telegramPuppet user = Some (fromSubentry co u0 data)
                      /\ same_profile u0 user
       | None => _telegramPuppet user = None
       end
    /\ trace w' = trace w.
Proof.
  intros Hty. unfold fromEntry. rewrite Hty. cbn.
  unfold bind, set_this, set_contactIDs, setTimeout, ret. cbn.
  destruct (data_puppet (entry_data entry)) as [data |]; cbn.
  - rewrite telegramPuppet_run. cbn. do 2 eexists. split; [reflexivity |].
    cbn. repeat split. eexists. split; [reflexivity |].
    unfold same_profile. cbn. auto 10.
  - do 2 eexists. split; [reflexivity |]. cbn. auto 10.
Qed.

End Login.

Section Contacts.

Variable co : Collaborators.

Lemma all_outcomes_Forall2 {A B} (f : A -> outcome B) (l : list A) (r : list B) :
  Forall2 (fun a b => f a = Return b) l r -> all_outcomes (map f l) = Return r.
Proof.
  induction 1 as [| a b l r Hab _ IH]; cbn; [reflexivity |]. now rewrite Hab, IH.
Qed.

Lemma all_outcomes_Throw {A B} (f : A -> outcome B) (l : list A) :
  (exists a err, In a l /\ f a = Throw err) ->
  exists err, all_outcomes (map f l) = Throw err.
Proof.
  induction l as [| x rest IH]; intros (a & err & Hin & Ha); [contradiction |].
  cbn. destruct (f x) as [b | e] eqn:E; [| eauto].
  destruct Hin as [-> | Hin]; [congruence |].
  destruct (IH (ex_intro _ a (ex_intro _ err (conj Hin Ha)))) as (e & He).
  rewrite He. eauto.
Qed.

(** X14. The callback of the [contactIDs] setter is all or nothing. For a
    list of ids it asks [app.getTelegramUser] for every id, in order; when
    every lookup succeeds the contacts of the user become the users found,
    in the order of the ids, and when one lookup fails the callback fails
    and the contacts are as before. Without a list it does nothing. Nothing
    else of the user changes and nothing is saved. *)
Theorem run_timer_all_or_nothing (ids : list Z) (st : state) :
  let st' := snd (run_timer co (Timer_contactIDs (Some ids)) st) in
  (forall resolved : list TelegramUser.t,
      Forall2 (fun id user => getTelegramUser co id = Return user) ids resolved ->
      fst (run_timer co (Timer_contactIDs (Some ids)) st) = Return tt
      /\ this st' = with_contacts resolved (this st))
  /\ ((exists id err, In id ids /\ getTelegramUser co id = Throw err) ->
      (exists err, fst (run_timer co (Timer_contactIDs (Some ids)) st) = Throw err)
      /\ this st' = this st)
  /\ trace (env st') = (trace (env st) ++ map Call_getTelegramUser ids)%list
  /\ timers (env st') = timers (env st)
  /\ run_timer co (Timer_contactIDs None) st = (Return tt, st).
Proof.
  cbv zeta. unfold run_timer, bind, Promise_all_map, set_this, ret.
  repeat split.
  - rewrite (all_outcomes_Forall2 _ H). reflexivity.
  - rewrite (all_outcomes_Forall2 _ H). reflexivity.
  - destruct (all_outcomes_Throw (getTelegramUser co) ids H) as (err & Herr).
    rewrite Herr. cbn. eauto.
  - destruct (all_outcomes_Throw (getTelegramUser co) ids H) as (err & Herr).
    rewrite Herr. reflexivity.
  - destruct (all_outcomes (map (getTelegramUser co) ids)); reflexivity.
  - destruct (all_outcomes (map (getTelegramUser co) ids)); reflexivity.
Qed.

Lemma all_outcomes_resolved (ids : list Z) :
  (forall i, In i ids ->
             exists user, getTelegramUser co i = Return user /\ TelegramUser.id user = i) ->
  exists resolved,
    all_outcomes (map (getTelegramUser co) ids) = Return resolved
    /\ map TelegramUser.id resolved = ids.
Proof.
  induction ids as [| i rest IH]; intros H; [exists []; auto |].
  destruct (H i (or_introl eq_refl)) as (user & Hget & Hid).
  destruct IH as (resolved & Hall & Hids); [intros j Hj; apply H; now right |].
  exists (user :: resolved). cbn. rewrite Hget, Hall. cbn. now rewrite Hid, Hids.
Qed.

(** X15. The contact ids survive the entry once the timer has fired: when
    [app.getTelegramUser] answers, for the id of each contact, a user with
    that id, the user that [fromEntry] makes of the entry of a user reads
    no contact ids when it is returned, has the callback of the ids of the
    entry pending, and reads the contact ids of the original user after
    that callback has run. *)
Theorem contactIDs_round_trip (st : state) (w : world) :
  (forall i, In i (map TelegramUser.id (contacts (this st))) ->
             exists user, getTelegramUser co i = Return user /\ TelegramUser.id user = i) ->
  let ids := map TelegramUser.id (contacts (this st)) in
  exists entry user w',
    fst (toEntry co st) = Return entry
    /\ fromEntry co entry w = (Return user, w')
    /\ timers w' = (timers w ++ [Timer_contactIDs (Some ids)])%list
    /\ fst (contactIDs {| this := user; env := w' |}) = Return []
    /\ fst (contactIDs
              (snd (run_timer co (Timer_contactIDs (Some ids))
                      {| this := user; env := w' |})))
       = Return ids.
Proof.
  intros Hreg ids.
  destruct (toEntry_run co st) as (entry & st1 & Hto & Hty & _ & _ & _ & Hids).
  destruct (fromEntry_matrix co entry w Hty)
    as (user & w' & Hfrom & _ & _ & _ & Hnone & _ & Htimers).
  exists entry, user, w'. rewrite Hto. cbn [fst].
  rewrite Htimers, Hids. fold ids.
  destruct (all_outcomes_resolved ids Hreg) as (resolved & Hall & Hmap).
  unfold contactIDs, run_timer, bind, Promise_all_map, get_this, set_this, ret. cbn.
  rewrite Hnone, Hall. cbn. rewrite Hmap. auto.
Qed.

Lemma same_profile_trans (u v x : MatrixUser) :
  same_profile u v -> same_profile v x -> same_profile u x.
Proof.
  unfold same_profile. intros (? & ? & ? & ? & ? & ? & ?) (? & ? & ? & ? & ? & ? & ?).
  repeat split; congruence.
Qed.

Lemma persisted_app (l1 l2 : list (event TelegramPuppet PuppetData Portal)) :
  persisted (l1 ++ l2) = (persisted l1 ++ persisted l2)%list.
Proof. apply filter_app. Qed.

Lemma syncContacts_loop_frame (users : list Remote.user) :
  forall (st : state) (r : outcome (list TelegramUser.t)) (st' : state),
    syncContacts_loop co users st = (r, st') ->
    same_profile (this st) (this st')
    /\ persisted (trace (env st')) = persisted (trace (env st))
    /\ timers (env st') = timers (env st).
Proof.
  induction users as [| contact rest IH]; intros st r st' E.
  - cbn in E. inversion E; subst. split; [apply same_profile_refl | auto].
  - cbn [syncContacts_loop] in E. unfold bind at 1, call at 1 in E. cbn in E.
    destruct (getTelegramUser co (Remote.user_id contact)) as [telegramUser | err].
    2:{ inversion E; subst. cbn. rewrite persisted_app. cbn. rewrite app_nil_r.
        split; [apply same_profile_refl | auto]. }
    unfold bind at 1 in E. rewrite telegramPuppet_run in E.
    unfold bind at 1, call at 1 in E. cbn in E.
    destruct (TelegramUser_updateInfo co telegramUser _ contact true)
      as [updated | err].
    2:{ inversion E; subst. cbn. rewrite !persisted_app. cbn. rewrite !app_nil_r.
        split; [apply (with_puppet_same_profile co) | auto]. }
    unfold bind at 1 in E.
    match type of E with
    | context [syncContacts_loop co rest ?s] =>
        destruct (syncContacts_loop co rest s) as [r2 st2] eqn:E2
    end.
    apply IH in E2. cbn in E2. destruct E2 as (Hprof & Hpers & Htim).
    assert (Hst : st' = st2) by (destruct r2; cbn in E; inversion E; reflexivity).
    subst st'. rewrite Hpers, Htim, !persisted_app. cbn. rewrite !app_nil_r.
    split; [| auto].
    eapply same_profile_trans; [apply (with_puppet_same_profile co) | exact Hprof].
Qed.

Lemma syncContacts_fetch_failed (st : state) (err : thrown) :
  client_getContacts co (puppet_of co (this st)) (contacts_hash co (this st)) = Throw err ->
  syncContacts co st
  = (Throw err,
     after [Call_client "contacts.getContacts" (Some (contacts_hash co (this st)))]
       (with_puppet co (this st)) st).
Proof.
  intros Hfetch.
  destruct (with_puppet_frame co (this st)) as (_ & _ & _ & _ & _ & Hct).
  unfold syncContacts, bind at 1. rewrite telegramPuppet_run.
  unfold bind at 1, contactIDs, bind at 1, get_this, ret. cbn.
  rewrite Hct. fold (contacts_hash co (this st)). rewrite Hfetch. reflexivity.
Qed.

Lemma syncContacts_loop_fails (before rest : list Remote.user) (contact : Remote.user)
    (resolved : list TelegramUser.t) (u : MatrixUser) (err : thrown) :
  refreshed co (puppet_of co u) before resolved ->
  (getTelegramUser co (Remote.user_id contact) = Throw err
   \/ exists telegramUser,
       getTelegramUser co (Remote.user_id contact) = Return telegramUser
       /\ TelegramUser_updateInfo co telegramUser (puppet_of co u) contact true
          = Throw err) ->
  forall w : world,
    fst (syncContacts_loop co (before ++ contact :: rest)
           {| this := with_puppet co u; env := w |})
    = Throw err.
Proof.
  intros Hbefore Hfail.
  induction Hbefore as [| c r telegramUser updated l Hget Hupd _ IH]; intros w.
  - cbn [app syncContacts_loop]. unfold bind, call, ret.
    destruct Hfail as [Hget | (telegramUser & Hget & Hupd)]; rewrite Hget; cbn;
      [reflexivity |].
    rewrite telegramPuppet_run. cbn. rewrite puppet_of_with_puppet, Hupd. reflexivity.
  - cbn [app syncContacts_loop]. unfold bind, call, ret.
    rewrite Hget. cbn. rewrite telegramPuppet_run. cbn.
    rewrite puppet_of_with_puppet, with_puppet_idem, Hupd.
    match goal with
    | |- context [syncContacts_loop co _ {| this := _; env := ?w' |}] =>
        specialize (IH w');
        destruct (syncContacts_loop co (r ++ contact :: rest)
                    {| this := with_puppet co u; env := w' |}) as [[users | e] st1]
    end; cbn in IH |- *; congruence.
Qed.

(** X16. [syncContacts] has no partial commit, and its outcome tells which
    case a run is. A run that returns [false] leaves the user as it was
    (but for its session object) and hands nothing to [app.putUser]; a run
    that returns [true] has made exactly one call to [app.putUser], with
    the user as it is at the end of the run; a run that fails has either
    left the user as it was and saved nothing, or has made that one call
    to [app.putUser], which is the call that failed. A failing fetch, and
    a failing lookup or update of a contact after any number of refreshed
    ones, fail the run with what was thrown and leave the user, so its
    contacts, as it was, with nothing saved. *)
Theorem syncContacts_no_partial_commit (st : state) :
  let u := this st in
  let st' := snd (syncContacts co st) in
  let untouched :=
    same_profile u (this st')
    /\ persisted (trace (env st')) = persisted (trace (env st)) in
  let saved :=
    persisted (trace (env st'))
    = (persisted (trace (env st)) ++ [Call_putUser (this st')])%list in
  match fst (syncContacts co st) with
  | Return true => saved
  | Return false => untouched
  | Throw err => untouched \/ (saved /\ putUser co (this st') = Throw err)
  end
  /\ (forall err,
         client_getContacts co (puppet_of co u) (contacts_hash co u) = Throw err ->
         fst (syncContacts co st) = Throw err /\ untouched)
  /\ (forall (answer : Remote.contacts) (before rest : list Remote.user)
             (contact : Remote.user) (resolved : list TelegramUser.t) (err : thrown),
         client_getContacts co (puppet_of co u) (contacts_hash co u) = Return answer ->
         (Remote.contacts_tag answer =? "contacts.contactsNotModified")%string = false ->
         Remote.users answer = (before ++ contact :: rest)%list ->
         refreshed co (puppet_of co u) before resolved ->
         (getTelegramUser co (Remote.user_id contact) = Throw err
          \/ exists telegramUser,
              getTelegramUser co (Remote.user_id contact) = Return telegramUser
              /\ TelegramUser_updateInfo co telegramUser (puppet_of co u) contact true
                 = Throw err) ->
         fst (syncContacts co st) = Throw err /\ untouched).
Proof.
  cbv zeta. split; [| split].
  - destruct (client_getContacts co (puppet_of co (this st)) (contacts_hash co (this st)))
      as [answer | err] eqn:Hfetch.
    + rewrite (syncContacts_run co st Hfetch). cbv zeta.
      destruct (Remote.contacts_tag answer =? "contacts.contactsNotModified")%string.
      * unfold after. cbn. rewrite persisted_app. cbn. rewrite app_nil_r.
        split; [apply (with_puppet_same_profile co) | reflexivity].
      * match goal with
        | |- context [syncContacts_loop co ?us ?s] =>
            destruct (syncContacts_loop co us s) as [r st1] eqn:E;
            apply syncContacts_loop_frame in E
        end.
        cbn in E. destruct E as (Hprof & Hpers & _).
        destruct r as [users | err].
        -- assert (Hsaved :
                     persisted (trace (env (after [Call_putUser (with_contacts users (this st1))]
                                              (with_contacts users (this st1)) st1)))
                     = (persisted (trace (env st))
                        ++ [Call_putUser (with_contacts users (this st1))])%list).
           { unfold after. cbn. rewrite persisted_app, Hpers, persisted_app. cbn.
             now rewrite app_nil_r. }
           destruct (putUser co (with_contacts users (this st1))) as [[] | err] eqn:Hput;
             cbn [fst snd]; [exact Hsaved |].
           right. split; [exact Hsaved | exact Hput].
        -- left. cbn. rewrite Hpers, persisted_app. cbn. rewrite app_nil_r.
           split; [| reflexivity].
           eapply same_profile_trans; [apply (with_puppet_same_profile co) | exact Hprof].
    + rewrite (syncContacts_fetch_failed st Hfetch). unfold after. cbn.
      left. rewrite persisted_app. cbn. rewrite app_nil_r.
      split; [apply (with_puppet_same_profile co) | reflexivity].
  - intros err Hfetch. rewrite (syncContacts_fetch_failed st Hfetch). unfold after. cbn.
    rewrite persisted_app. cbn. rewrite app_nil_r.
    split; [reflexivity | split; [apply (with_puppet_same_profile co) | reflexivity]].
  - intros answer before rest contact resolved err Hfetch Htag Husers Hbefore Hfail.
    rewrite (syncContacts_run co st Hfetch). cbv zeta. rewrite Htag, Husers.
    unfold after.
    match goal with
    | |- context [syncContacts_loop co ?us {| this := _; env := ?w |}] =>
        pose proof (@syncContacts_loop_fails before rest contact resolved (this st) err
                      Hbefore Hfail w) as Hthrow;
        destruct (syncContacts_loop co us {| this := with_puppet co (this st); env := w |})
          as [r st1] eqn:E;
        apply syncContacts_loop_frame in E
    end.
    cbn in Hthrow, E. subst r. destruct E as (Hprof & Hpers & _). cbn.
    split; [reflexivity |]. rewrite Hpers, persisted_app. cbn. rewrite app_nil_r.
    split; [| reflexivity].
    eapply same_profile_trans; [apply (with_puppet_same_profile co) | exact Hprof].
Qed.

End Contacts.

Section Dialogs.

Variable co : Collaborators.

Lemma syncDialogs_loop_app (createRooms : bool) (l1 l2 : list Remote.chat) :
  forall (changed : bool) (st : state),
    syncDialogs_loop co createRooms (l1 ++ l2) changed st
    = match syncDialogs_loop co createRooms l1 changed st with
      | (Return flag, st1) => syncDialogs_loop co createRooms l2 flag st1
      | (Throw err, st1) => (Throw err, st1)
      end.
Proof.
  induction l1 as [| dialog rest IH]; intros changed st; [reflexivity |].
  cbn [app syncDialogs_loop]. destruct (skipped dialog); [apply IH |].
  unfold bind.
  destruct (syncDialogs_body co createRooms dialog changed st) as [[flag | err] st1];
    [apply IH | reflexivity].
Qed.

Lemma persisted_room_calls (createRooms : bool) (portal : Portal) (u : MatrixUser) :
  persisted (room_calls co createRooms portal u) = [].
Proof.
  unfold room_calls. destruct createRooms; [| reflexivity].
  destruct (createMatrixRoom co portal _ _) as [[] | err];
    [| destruct (is_nullish err)]; reflexivity.
Qed.

Lemma syncDialogs_body_frame (createRooms : bool) (dialog : Remote.chat)
    (changed : bool) (st : state) (r : outcome bool) (st' : state) :
  syncDialogs_body co createRooms dialog changed st = (r, st') ->
  same_profile (this st) (this st')
  /\ puppet_of co (this st') = puppet_of co (this st)
  /\ persisted (trace (env st')) = persisted (trace (env st))
  /\ timers (env st') = timers (env st)
  /\ exists calls, trace (env st') = (trace (env st) ++ calls)%list.
Proof.
  rewrite syncDialogs_body_run. cbv zeta. unfold after.
  destruct (getPortalByPeer co (peer_of dialog)) as [portal | err].
  - destruct (Portal_updateInfo co portal (puppet_of co (this st)) dialog)
      as [updated | err]; intros E; inversion E; subst; cbn;
      rewrite persisted_app, puppet_of_with_puppet;
      (split; [apply (with_puppet_same_profile co) |]);
      repeat split; eauto.
    + change (persisted (?a :: ?b :: ?rc)) with (persisted rc).
      now rewrite persisted_room_calls, app_nil_r.
    + cbn. now rewrite app_nil_r.
  - intros E; inversion E; subst; cbn. rewrite persisted_app. cbn. rewrite app_nil_r.
    split; [apply same_profile_refl | eauto 10].
Qed.

Lemma syncDialogs_loop_frame (createRooms : bool) (chats : list Remote.chat) :
  forall (changed : bool) (st : state) (r : outcome bool) (st' : state),
    syncDialogs_loop co createRooms chats changed st = (r, st') ->
    same_profile (this st) (this st')
    /\ puppet_of co (this st') = puppet_of co (this st)
    /\ persisted (trace (env st')) = persisted (trace (env st))
    /\ timers (env st') = timers (env st)
    /\ exists calls, trace (env st') = (trace (env st) ++ calls)%list.
Proof.
  induction chats as [| dialog rest IH]; intros changed st r st' E.
  - cbn in E. inversion E; subst. split; [apply same_profile_refl |].
    repeat split. exists []. now rewrite app_nil_r.
  - cbn [syncDialogs_loop] in E. destruct (skipped dialog); [now apply IH in E |].
    unfold bind in E.
    destruct (syncDialogs_body co createRooms dialog changed st) as [r1 st1] eqn:E1.
    apply syncDialogs_body_frame in E1.
    destruct E1 as (Hprof & Hpup & Hpers & Htim & calls & Htr).
    destruct r1 as [flag | err].
    + apply IH in E. destruct E as (Hprof2 & Hpup2 & Hpers2 & Htim2 & calls2 & Htr2).
      split; [eapply same_profile_trans; eassumption |].
      repeat split; try congruence.
      exists (calls ++ calls2)%list. rewrite Htr2, Htr. now rewrite app_assoc.
    + inversion E; subst. eauto 10.
Qed.

(** X17. [syncDialogs] never saves the user and never changes it but for
    its session object: in every run, whatever fails, nothing is handed to
    [app.putUser], no timer is set, and the fields of the user other than
    the session object are as before. *)
Theorem syncDialogs_frame (options : option bool) (st : state) :
  let st' := snd (syncDialogs co options st) in
  same_profile (this st) (this st')
  /\ persisted (trace (env st')) = persisted (trace (env st))
  /\ timers (env st') = timers (env st).
Proof.
  cbv zeta. rewrite syncDialogs_run. cbv zeta.
  destruct (client_getDialogs co (puppet_of co (this st))) as [dialogs | err].
  - match goal with
    | |- context [syncDialogs_loop co ?cr ?l ?c ?s] =>
        destruct (syncDialogs_loop co cr l c s) as [r st1] eqn:E;
        apply syncDialogs_loop_frame in E
    end.
    cbn in E |- *. destruct E as (Hprof & _ & Hpers & Htim & _).
    rewrite Hpers, Htim, persisted_app. cbn. rewrite app_nil_r.
    split; [| auto].
    eapply same_profile_trans; [apply (with_puppet_same_profile co) | exact Hprof].
  - unfold after. cbn. rewrite persisted_app. cbn. rewrite app_nil_r.
    split; [apply (with_puppet_same_profile co) | auto].
Qed.

Lemma room_failure_None (createRooms : bool) (portal : Portal) (u : MatrixUser) :
  (createRooms = true -> rooms_handled co) ->
  room_failure co createRooms portal u = None.
Proof.
  intros Hrooms. unfold room_failure. destruct createRooms; [| reflexivity].
  specialize (Hrooms eq_refl portal (puppet_of co u) [userID u]).
  destruct (createMatrixRoom co portal _ _) as [[] | err]; [reflexivity |].
  cbn in Hrooms. now rewrite Hrooms.
Qed.

Lemma syncDialogs_loop_flag (createRooms : bool) (puppet : TelegramPuppet)
    (chats : list Remote.chat) :
  (createRooms = true -> rooms_handled co) ->
  forall (changed : bool) (st : state),
    puppet_of co (this st) = puppet ->
    (forall dialog, In dialog chats -> skipped dialog = false ->
                    dialog_updates co puppet dialog) ->
    fst (syncDialogs_loop co createRooms chats changed st)
    = Return (changed
              || existsb (fun dialog =>
                            negb (skipped dialog) && dialog_changed co puppet dialog)
                   chats).
Proof.
  intros Hrooms.
  induction chats as [| dialog rest IH]; intros changed st Hpup Hok.
  - cbn. now rewrite orb_false_r.
  - cbn [syncDialogs_loop existsb].
    destruct (skipped dialog) eqn:Hskip; cbn [negb andb orb].
    + apply IH; [exact Hpup | intros d Hd; apply Hok; now right].
    + destruct (Hok dialog (or_introl eq_refl) Hskip) as (portal & updated & Hget & Hupd).
      unfold bind. rewrite syncDialogs_body_run. cbv zeta.
      rewrite Hpup, Hget, Hupd, (room_failure_None _ _ Hrooms).
      rewrite IH.
      * unfold dialog_changed. rewrite Hget, Hupd.
        destruct updated, changed; reflexivity.
      * unfold after. cbn. now rewrite puppet_of_with_puppet.
      * intros d Hd. apply Hok. now right.
Qed.

(** X18. When the portal of every conversation that is not passed over is
    found and updated and no room creation rejects with [null] or
    [undefined] (or no room is to be created), [syncDialogs] returns [true]
    exactly when [portal.updateInfo] answered [true] for at least one of
    those conversations: the flag is the disjunction of those answers. *)
Theorem syncDialogs_changed_flag (options : option bool) (dialogs : Remote.dialogs)
    (st : state) :
  client_getDialogs co (puppet_of co (this st)) = Return dialogs ->
  (forall dialog, In dialog (Remote.chats dialogs) -> skipped dialog = false ->
                  dialog_updates co (puppet_of co (this st)) dialog) ->
  (match options with Some b => b | None => true end = true -> rooms_handled co) ->
  fst (syncDialogs co options st)
  = Return (existsb (fun dialog =>
                       negb (skipped dialog)
                       && dialog_changed co (puppet_of co (this st)) dialog)
              (Remote.chats dialogs)).
Proof.
  intros Hfetch Hok Hrooms. rewrite syncDialogs_run. cbv zeta. rewrite Hfetch.
  rewrite (syncDialogs_loop_flag (puppet := puppet_of co (this st)) _ Hrooms).
  - reflexivity.
  - unfold after. cbn. apply puppet_of_with_puppet.
  - exact Hok.
Qed.

(** X19. Unlike a failing room creation, a failing lookup or update of a
    portal stops [syncDialogs]: when the conversations before it were
    synchronised (no room creation rejecting with [null] or [undefined])
    and the portal of a conversation that is not passed over cannot be
    found, or cannot be updated, [syncDialogs] fails with what was thrown
    and the failing call is the last call of the run, so no later
    conversation is looked at. *)
Theorem syncDialogs_update_failure_aborts (options : option bool)
    (dialogs : Remote.dialogs) (before rest : list Remote.chat)
    (dialog : Remote.chat) (st : state) :
  client_getDialogs co (puppet_of co (this st)) = Return dialogs ->
  Remote.chats dialogs = (before ++ dialog :: rest)%list ->
  (forall d, In d before -> skipped d = false ->
             dialog_updates co (puppet_of co (this st)) d) ->
  (match options with Some b => b | None => true end = true -> rooms_handled co) ->
  skipped dialog = false ->
  let st' := snd (syncDialogs co options st) in
  let lookup := Call_getPortalByPeer (peer_of dialog) in
  (forall err,
      getPortalByPeer co (peer_of dialog) = Throw err ->
      fst (syncDialogs co options st) = Throw err
      /\ exists calls, trace (env st') = (trace (env st) ++ calls ++ [lookup])%list)
  /\ (forall portal err,
         getPortalByPeer co (peer_of dialog) = Return portal ->
         Portal_updateInfo co portal (puppet_of co (this st)) dialog = Throw err ->
         fst (syncDialogs co options st) = Throw err
         /\ exists calls,
             trace (env st')
             = (trace (env st) ++ calls
                ++ [lookup; Call_Portal_updateInfo portal dialog])%list).
Proof.
  intros Hfetch Hchats Hbefore Hrooms Hskip. cbv zeta.
  rewrite syncDialogs_run. cbv zeta. rewrite Hfetch, Hchats, syncDialogs_loop_app.
  match goal with
  | |- context [syncDialogs_loop co ?cr before ?c ?s] =>
      pose proof (syncDialogs_loop_flag (puppet := puppet_of co (this st))
                    before Hrooms c s) as Hflag;
      destruct (syncDialogs_loop co cr before c s) as [r st1] eqn:E;
      apply syncDialogs_loop_frame in E
  end.
  cbn [fst] in Hflag. rewrite Hflag; [| apply puppet_of_with_puppet | exact Hbefore].
  destruct E as (_ & Hpup & _ & _ & calls & Htr).
  unfold after in Hpup, Htr. cbn in Hpup, Htr. rewrite puppet_of_with_puppet in Hpup.
  cbn [syncDialogs_loop]. rewrite Hskip. unfold bind.
  rewrite syncDialogs_body_run. cbv zeta. rewrite Hpup.
  split.
  - intros err Herr. rewrite Herr. cbn. split; [reflexivity |].
    exists (Call_client "messages.getDialogs" None :: calls).
    rewrite Htr, <- !app_assoc. reflexivity.
  - intros portal err Hget Herr. rewrite Hget, Herr. cbn. split; [reflexivity |].
    exists (Call_client "messages.getDialogs" None :: calls).
    rewrite Htr, <- !app_assoc. reflexivity.
Qed.

Lemma without_rooms_app (l1 l2 : list (event TelegramPuppet PuppetData Portal)) :
  without_rooms (l1 ++ l2) = (without_rooms l1 ++ without_rooms l2)%list.
Proof. apply filter_app. Qed.

Lemma without_rooms_room_calls (createRooms : bool) (portal : Portal) (u : MatrixUser) :
  without_rooms (room_calls co createRooms portal u) = [].
Proof.
  unfold room_calls. destruct createRooms; [| reflexivity].
  destruct (createMatrixRoom co portal _ _) as [[] | err];
    [| destruct (is_nullish err)]; reflexivity.
Qed.

Lemma syncDialogs_body_rooms (createRooms createRooms' : bool) (dialog : Remote.chat)
    (changed : bool) (st1 st2 : state) :
  rooms_handled co ->
  same_but_rooms st1 st2 ->
  fst (syncDialogs_body co createRooms dialog changed st1)
  = fst (syncDialogs_body co createRooms' dialog changed st2)
  /\ same_but_rooms (snd (syncDialogs_body co createRooms dialog changed st1))
       (snd (syncDialogs_body co createRooms' dialog changed st2)).
Proof.
  intros Hrooms (Hthis & Htimers & Htrace).
  rewrite !syncDialogs_body_run. cbv zeta. rewrite Hthis.
  unfold same_but_rooms, after.
  destruct (getPortalByPeer co (peer_of dialog)) as [portal | err].
  - rewrite (room_failure_None (createRooms := createRooms) portal
               (with_puppet co (this st2)) (fun _ => Hrooms)),
      (room_failure_None (createRooms := createRooms') portal
         (with_puppet co (this st2)) (fun _ => Hrooms)).
    destruct (Portal_updateInfo co portal (puppet_of co (this st2)) dialog)
      as [updated | err]; cbn; repeat split; trivial;
      rewrite !without_rooms_app, Htrace; f_equal.
    match goal with
    | |- without_rooms (?a :: ?b :: ?rc) = without_rooms (?a :: ?b :: ?rc') =>
        change (without_rooms ([a; b] ++ rc) = without_rooms ([a; b] ++ rc'))
    end.
    now rewrite !without_rooms_app, !without_rooms_room_calls.
  - cbn. repeat split; trivial. now rewrite !without_rooms_app, Htrace.
Qed.

Lemma syncDialogs_loop_rooms (createRooms createRooms' : bool)
    (chats : list Remote.chat) :
  rooms_handled co ->
  forall (changed : bool) (st1 st2 : state),
    same_but_rooms st1 st2 ->
    fst (syncDialogs_loop co createRooms chats changed st1)
    = fst (syncDialogs_loop co createRooms' chats changed st2)
    /\ same_but_rooms (snd (syncDialogs_loop co createRooms chats changed st1))
         (snd (syncDialogs_loop co createRooms' chats changed st2)).
Proof.
  intros Hrooms.
  induction chats as [| dialog rest IH]; intros changed st1 st2 Hsame.
  - cbn. auto.
  - cbn [syncDialogs_loop]. destruct (skipped dialog); [now apply IH |].
    unfold bind.
    destruct (syncDialogs_body_rooms createRooms createRooms' dialog changed
                Hrooms Hsame) as (Hfst & Hsnd).
    destruct (syncDialogs_body co createRooms _ _ st1) as [r1 st1'].
    destruct (syncDialogs_body co createRooms' _ _ st2) as [r2 st2'].
    cbn in Hfst, Hsnd. subst r2. destruct r1 as [flag | err]; [now apply IH | auto].
Qed.

Lemma syncDialogs_loop_no_rooms (chats : list Remote.chat) :
  forall (changed : bool) (st : state) (r : outcome bool) (st' : state),
    syncDialogs_loop co false chats changed st = (r, st') ->
    exists calls,
      trace (env st') = (trace (env st) ++ calls)%list /\ without_rooms calls = calls.
Proof.
  induction chats as [| dialog rest IH]; intros changed st r st' E.
  - cbn in E. inversion E; subst. exists []. now rewrite app_nil_r.
  - cbn [syncDialogs_loop] in E. destruct (skipped dialog); [now apply IH in E |].
    unfold bind in E. rewrite syncDialogs_body_run in E. cbv zeta in E.
    unfold room_calls, after in E.
    destruct (getPortalByPeer co (peer_of dialog)) as [portal | err].
    + destruct (Portal_updateInfo co portal _ dialog) as [updated | err].
      * apply IH in E. destruct E as (calls & Htr & Hcalls). cbn in Htr.
        exists ([Call_getPortalByPeer (peer_of dialog);
                 Call_Portal_updateInfo portal dialog] ++ calls)%list.
        rewrite Htr, <- app_assoc, without_rooms_app, Hcalls. auto.
      * inversion E; subst. cbn. eexists. split; reflexivity.
    + inversion E; subst. cbn. eexists. split; reflexivity.
Qed.

(** X20. The option [createRooms] decides about the room creations. With
    [createRooms: false], [syncDialogs] makes no call to
    [createMatrixRoom] and writes nothing to the console; the run without
    options is the run with [createRooms: true]; and when no room creation
    rejects with [null] or [undefined], the outcome of the run with
    [createRooms: false], the user it leaves and its calls are those of the
    run with [createRooms: true], room creations and console lines
    apart. *)
Theorem syncDialogs_createRooms (st : state) :
  let quiet := syncDialogs co (Some false) st in
  let full := syncDialogs co (Some true) st in
  (exists calls,
      trace (env (snd quiet)) = (trace (env st) ++ calls)%list
      /\ without_rooms calls = calls)
  /\ syncDialogs co None st = full
  /\ (rooms_handled co ->
      fst quiet = fst full
      /\ this (snd quiet) = this (snd full)
      /\ without_rooms (trace (env (snd quiet)))
         = without_rooms (trace (env (snd full)))).
Proof.
  cbv zeta. rewrite !syncDialogs_run. cbv zeta.
  destruct (client_getDialogs co (puppet_of co (this st))) as [dialogs | err].
  - split; [| split; [reflexivity |]].
    + match goal with
      | |- context [syncDialogs_loop co false ?l ?c ?s] =>
          destruct (syncDialogs_loop co false l c s) as [r st1] eqn:E;
          apply syncDialogs_loop_no_rooms in E
      end.
      cbn [fst snd] in *. destruct E as (calls & Htr & Hcalls).
      exists (Call_client "messages.getDialogs" None :: calls).
      unfold after in Htr. cbn in Htr. rewrite Htr, <- app_assoc. cbn.
      split; [reflexivity |].
      change (without_rooms ([Call_client "messages.getDialogs" None] ++ calls)
              = ([Call_client "messages.getDialogs" None] ++ calls)%list).
      now rewrite without_rooms_app, Hcalls.
    + intros Hrooms.
      match goal with
      | |- context [syncDialogs_loop co false ?l ?c ?s] =>
          destruct (syncDialogs_loop_rooms false true l Hrooms c (st1 := s) (st2 := s))
            as (Hfst & Hthis & _ & Htrace); [unfold same_but_rooms; auto |]
      end.
      auto.
  - cbn. split; [eexists; split; reflexivity | auto].
Qed.

End Dialogs.

Section Ranking.

Variable co : Collaborators.

Lemma searchContacts_loop_filter (query : string) (threshold : Q)
    (l : list TelegramUser.t) :
  searchContacts_loop co query threshold l
  = map (result_of co query) (filter (qualifies co query threshold) l).
Proof.
  induction l as [| c rest IH]; [reflexivity |].
  cbn [searchContacts_loop filter]. unfold qualifies at 1.
  destruct (Qle_bool threshold (contact_similarity co query c)); cbn [map];
    now rewrite IH.
Qed.

Lemma sort_insert_perm (x : SearchResult) (l : list SearchResult) :
  Permutation (sort_insert by_similarity x l) (x :: l).
Proof.
  induction l as [| y rest IH]; cbn; [reflexivity |].
  destruct (Qle_bool (by_similarity x y) 0); [reflexivity |].
  rewrite IH. apply perm_swap.
Qed.

Lemma sort_perm (l : list SearchResult) : Permutation (sort by_similarity l) l.
Proof.
  induction l as [| x rest IH]; cbn; [reflexivity |].
  rewrite sort_insert_perm. now constructor.
Qed.

Lemma sorted_app_ranked (l1 l2 : list SearchResult) :
  StronglySorted ranked_before (l1 ++ l2) ->
  forall r r', In r l1 -> In r' l2 -> ranked_before r r'.
Proof.
  induction l1 as [| x rest IH]; cbn; intros Hsorted r r' Hr Hr'; [contradiction |].
  inversion Hsorted as [| ? ? Hrest Hall]; subst.
  destruct Hr as [-> | Hr]; [| now apply IH].
  rewrite Forall_forall in Hall. apply Hall, in_or_app. now right.
Qed.

(** X21. The results of [searchContacts] are the best matches: together
    with the results left out by the limit they are, up to order, the
    results of all the contacts whose similarity reaches the threshold;
    no result left out has a larger similarity than a result returned;
    and results are left out only when the limit is reached. *)
Theorem searchContacts_best (query : string) (maxResults : option nat)
    (minSimilarity : option Q) (st : state) :
  let limit := match maxResults with Some n => n | None => 5%nat end in
  let threshold := match minSimilarity with Some q => q | None => (45 # 100)%Q end in
  exists results rest : list SearchResult,
    fst (searchContacts co query maxResults minSimilarity st) = Return results
    /\ Permutation (results ++ rest)
         (map (result_of co query)
            (filter (qualifies co query threshold) (contacts (this st))))
    /\ (forall r r', In r results -> In r' rest -> ranked_before r r')
    /\ (rest = [] \/ List.length results = limit).
Proof.
  intros limit threshold. rewrite searchContacts_run. fold limit threshold.
  set (all := sort by_similarity
                (searchContacts_loop co query threshold (contacts (this st)))).
  exists (firstn limit all), (skipn limit all). cbn [fst].
  split; [reflexivity |]. split; [| split].
  - rewrite firstn_skipn. unfold all.
    rewrite sort_perm, searchContacts_loop_filter. reflexivity.
  - apply sorted_app_ranked. rewrite firstn_skipn. apply sort_sorted.
  - destruct (Nat.le_gt_cases (List.length all) limit) as [Hle | Hgt].
    + left. now apply skipn_all2.
    + right. apply firstn_length_le. lia.
Qed.

Lemma no_profile_similarity (query : string) (c : TelegramUser.t) :
  no_profile c = true -> contact_similarity co query c = 0%Q.
Proof.
  unfold no_profile. rewrite !andb_true_iff, !negb_true_iff.
  intros (((Hf & Hl) & Hu) & Hp).
  unfold contact_similarity, displaynameSimilarity, usernameSimilarity,
    numberSimilarity.
  rewrite Hf, Hl. cbn [orb].
  destruct (TelegramUser.username c); [rewrite Hu |];
    (destruct (TelegramUser.phoneNumber c); [rewrite Hp |]); reflexivity.
Qed.

(** X22. A contact with no name, no username and no phone number (each
    absent or empty) has similarity 0 for every query, so for a positive
    [minSimilarity], as the default is, [searchContacts] returns no result
    for it. *)
Theorem searchContacts_no_profile (query : string) (maxResults : option nat)
    (minSimilarity : option Q) (st : state) (c : TelegramUser.t) :
  no_profile c = true ->
  (0 < match minSimilarity with Some q => q | None => (45 # 100)%Q end)%Q ->
  contact_similarity co query c = 0%Q
  /\ exists results,
      fst (searchContacts co query maxResults minSimilarity st) = Return results
      /\ forall r, In r results -> contact r <> c.
Proof.
  intros Hnone Hpos. split; [now apply no_profile_similarity |].
  rewrite searchContacts_run. eexists. split; [reflexivity |].
  intros r Hr Hc.
  apply firstn_In, sort_In, searchContacts_loop_In in Hr.
  destruct Hr as (_ & Heq & Hthreshold).
  rewrite Heq in Hthreshold. cbn in Hthreshold.
  rewrite Hc, (no_profile_similarity query c Hnone) in Hthreshold.
  apply (Qlt_not_le _ _ Hpos Hthreshold).
Qed.

End Ranking.

End Properties.

(** ** Runs on the sample bridge *)

(** The doubles of this development are the machine's: quotients and a
    product computed here and by the primitive floats. *)
Example Double_is_binary64 :
  Double.of_Q (78 # 160) = Prim2SF (78 / 160)%float
  /\ Double.of_Q (Double.div 78 160 * 1000) = Prim2SF (78 / 160 * 1000)%float
  /\ Double.of_Q (488 # 10) = Prim2SF (488 / 10)%float
  /\ Double.of_Q (487 # 10) = Prim2SF (487 / 10)%float
  /\ Double.of_Q (1 # 3) = Prim2SF (1 / 3)%float.
Proof. vm_compute. repeat split. Qed.

(** The example of the specification: of the contacts alice (username
    "alice") and bob (a phone number), the query "alice" finds alice alone,
    with similarity 1 and match 100. *)
Example searchContacts_alice :
  exists r : SearchResult,
    fst (searchContacts Sample.co "alice" None (Some (45 # 100)%Q)
           (Sample.start Sample.with_friends))
    = Return [r]
    /\ contact r = Sample.alice
    /\ similarity r = 1%Q
    /\ (match_ r == 100)%Q.
Proof. eexists. repeat split. Qed.

(** A user logged in as 42 asks for a code. *)
Lemma sendTelegramCode_already_authenticated_witness :
  authenticated Sample.co Sample.logged_in = true
  /\ sendTelegramCode Sample.co "+15551234" (Sample.start Sample.logged_in)
     = (Throw (new_Error
                 "You are already logged in. Please log out before logging in again."),
        Sample.start Sample.logged_in).
Proof.
  split; [reflexivity |].
  apply (sendTelegramCode_already_authenticated Sample.co "+15551234"
           (Sample.start Sample.logged_in)).
  reflexivity.
Defined.

(** The session fails to send the code with an object that is no [Error]. *)
Lemma sendTelegramCode_normalizes_witness :
  exists message printable,
    fst (sendTelegramCode Sample.co_flood "+15551234" (Sample.start Sample.fresh))
    = Throw (Error message printable)
    /\ instanceof_Error (Error message printable) = true
    /\ (message = "FLOOD_WAIT_42" /\ printable = None).
Proof.
  apply (sendTelegramCode_normalizes Sample.co_flood "+15551234" (status := "registered")
           (err := Sample.flood) (Sample.start Sample.fresh));
    reflexivity.
Defined.

(** C4, as stated, fails when [signIn] fails: the user keeps its
    [phoneCodeHash] and is not handed to [app.putUser]. *)
Lemma signInToTelegram_failure_keeps_hash :
  let st := Sample.start Sample.code_sent in
  let st' := snd (signInToTelegram Sample.co_refused "00000" st) in
  truthy (phoneNumber (this st)) = true
  /\ truthy (phoneCodeHash (this st)) = true
  /\ fst (signInToTelegram Sample.co_refused "00000" st)
     = Throw (new_Error "PHONE_CODE_INVALID")
  /\ phoneCodeHash (this st') <> None
  /\ persisted (trace (env st')) = [].
Proof. cbv zeta. repeat split; try reflexivity. discriminate. Qed.

(** The session accepts the code of a user who asked for one. *)
Lemma signInToTelegram_outcome_witness :
  let st := Sample.start Sample.code_sent in
  let st' := snd (signInToTelegram Sample.co "12345" st) in
  phoneCodeHash (this st') = None
  /\ trace (env st')
     = [Call_signIn (Some "+15551234") (Some "c0de") "12345"; Call_putUser (this st')]
  /\ fst (signInToTelegram Sample.co "12345" st) = Return "ok".
Proof.
  exact (signInToTelegram_outcome Sample.co "12345"
           (Sample.start Sample.code_sent) eq_refl eq_refl).
Defined.

(** C7, as stated, fails on the handshake fields: after
    [logOutFromTelegram] the user still has its [phoneNumber] and
    [phoneCodeHash]. *)
Lemma logOutFromTelegram_keeps_handshake :
  let st := Sample.start Sample.code_sent in
  let st' := snd (logOutFromTelegram Sample.co st) in
  fst (logOutFromTelegram Sample.co st) = Return true
  /\ phoneNumber (this st') <> None
  /\ phoneCodeHash (this st') <> None.
Proof. cbv zeta. repeat split; try reflexivity; discriminate. Qed.

(** A logged-in user logs out. *)
Lemma logOutFromTelegram_effect_witness :
  let st := Sample.start Sample.logged_in in
  let st' := snd (logOutFromTelegram Sample.co st) in
  _telegramPuppet (this st') = None
  /\ puppetData (this st') = None
  /\ trace (env st') = [Call_logOut; Call_putUser (this st')]
  /\ fst (logOutFromTelegram Sample.co st) = Return true.
Proof.
  exact (proj2 (logOutFromTelegram_effect Sample.co (Sample.start Sample.logged_in))
           eq_refl).
Defined.

(** A user with two contacts and unchanged remote contacts; a fresh user with two remote contacts. *)
Lemma syncContacts_outcome_witness :
  (let st := Sample.start Sample.with_friends in
   let st' := snd (syncContacts Sample.co_unchanged st) in
   fst (syncContacts Sample.co_unchanged st) = Return false
   /\ contacts (this st') = [Sample.alice; Sample.bob]
   /\ trace (env st') = [Call_client "contacts.getContacts" (Some "7,9")])
  /\ (let st := Sample.start Sample.fresh in
      let st' := snd (syncContacts Sample.co st) in
      fst (syncContacts Sample.co st) = Return true
      /\ contacts (this st') = [Sample.alice; Sample.bob]
      /\ exists calls,
          trace (env st')
          = (Call_client "contacts.getContacts" (Some "")
             :: calls ++ [Call_putUser (this st')])%list
          /\ persisted calls = []).
Proof.
  split.
  - exact (proj1 (syncContacts_outcome Sample.co_unchanged
                    (Sample.start Sample.with_friends)
                    (answer := Sample.not_modified) eq_refl)
             eq_refl).
  - refine (proj2 (syncContacts_outcome Sample.co (Sample.start Sample.fresh)
                     (answer := Sample.two_contacts) eq_refl)
              _ [Sample.alice; Sample.bob] _ eq_refl).
    + discriminate.
    + repeat econstructor.
Defined.

(** Three conversations, one of them forbidden, with every room creation
    failing with an [Error] and with every one succeeding. *)
Lemma syncDialogs_room_failure_isolated_witness :
  let st := Sample.start Sample.fresh in
  let failing := with_createMatrixRoom Sample.no_rooms Sample.co in
  let succeeding := with_createMatrixRoom Sample.all_rooms Sample.co in
  let first := Sample.chat "chat" 1 false in
  let last := Sample.chat "channel" 4 false in
  (fst (syncDialogs failing None st) = Return true
   /\ fst (syncDialogs succeeding None st) = Return true
   /\ same_but_console (snd (syncDialogs failing None st))
        (snd (syncDialogs succeeding None st)))
  /\ syncDialogs_loop failing true [first; last] false st
     = syncDialogs_loop failing true [last] false
         (after [Call_getPortalByPeer (peer_of first);
                 Call_Portal_updateInfo (peer_of first) first;
                 Call_createMatrixRoom (peer_of first) ["@user:example.org"];
                 Call_console_error (Logged_value Sample.no_room);
                 Call_console_error (Logged_stack Sample.no_room)]
            (with_puppet Sample.co Sample.fresh) st)
  /\ fst (syncDialogs_loop failing true [first; last] false st) = Return true.
Proof.
  cbv zeta.
  pose proof (syncDialogs_room_failure_isolated Sample.co
                Sample.no_rooms Sample.all_rooms
                (fun _ _ _ => eq_refl) (fun _ _ _ => eq_refl)
                None (Sample.start Sample.fresh)) as [[Hfst Hsame] Hloop].
  split; [split; [reflexivity | split; [reflexivity | exact Hsame]] |].
  split; [| reflexivity].
  exact (Hloop (Sample.chat "chat" 1 false) [Sample.chat "channel" 4 false]
           false false (peer_of (Sample.chat "chat" 1 false)) Sample.no_room
           eq_refl eq_refl eq_refl eq_refl).
Defined.

(** C2, on the code: a room creation that rejects with [undefined] is not
    isolated. Of the three conversations of the sample, the first one is
    looked up and updated, its room creation rejects, the handler writes
    the value to the console and then throws the [TypeError] of reading
    [err.stack]: [syncDialogs] fails with it after five calls and never
    looks at the conversation 4, while with room creations that succeed it
    goes through the conversation 4 as well and returns [true]. *)
Theorem syncDialogs_nullish_rejection_aborts :
  let st := Sample.start Sample.fresh in
  let failing := with_createMatrixRoom Sample.lost_rooms Sample.co in
  let succeeding := with_createMatrixRoom Sample.all_rooms Sample.co in
  let first := Sample.chat "chat" 1 false in
  let last := Sample.chat "channel" 4 false in
  fst (syncDialogs failing None st)
  = Throw (new_Error "Cannot read properties of undefined (reading 'stack')")
  /\ trace (env (snd (syncDialogs failing None st)))
     = [Call_client "messages.getDialogs" None;
        Call_getPortalByPeer (peer_of first);
        Call_Portal_updateInfo (peer_of first) first;
        Call_createMatrixRoom (peer_of first) ["@user:example.org"];
        Call_console_error (Logged_value Undefined)]
  /\ fst (syncDialogs succeeding None st) = Return true
  /\ trace (env (snd (syncDialogs succeeding None st)))
     = [Call_client "messages.getDialogs" None;
        Call_getPortalByPeer (peer_of first);
        Call_Portal_updateInfo (peer_of first) first;
        Call_createMatrixRoom (peer_of first) ["@user:example.org"];
        Call_getPortalByPeer (peer_of last);
        Call_Portal_updateInfo (peer_of last) last;
        Call_createMatrixRoom (peer_of last) ["@user:example.org"]].
Proof. cbv zeta. repeat split. Qed.

(** A forbidden and a deactivated conversation. *)
Lemma syncDialogs_skips_forbidden_witness :
  let st := Sample.start Sample.fresh in
  syncDialogs_loop Sample.co true
    [Sample.chat "chatForbidden" 2 false; Sample.chat "chat" 3 true] false st
  = (Return false, st).
Proof.
  cbv zeta.
  destruct (syncDialogs_skips_forbidden Sample.co None (Sample.start Sample.fresh))
    as (_ & Hskip & _).
  rewrite Hskip by reflexivity. rewrite Hskip by reflexivity. reflexivity.
Defined.

(** The query alice with at most two results, for a user with four
    contacts: alice (score 1), alina (0.5) and alicia (0.4875) reach the
    threshold, bob does not; the two best are returned, best first. *)
Lemma searchContacts_ranked_witness :
  let st := Sample.start Sample.acquainted in
  exists results : list SearchResult,
    searchContacts Sample.co_ranked "alice" (Some 2%nat) None st = (Return results, st)
    /\ map contact results = [Sample.alice; Sample.alina]
    /\ Forall2 Qeq (map similarity results) [1; 1 # 2]%Q
    /\ Forall2 Qeq (map match_ results) [100; 50]%Q
    /\ (List.length results <= 2)%nat
    /\ StronglySorted ranked_before results
    /\ Forall
         (fun r =>
            (45 # 100 <= similarity r)%Q
            /\ match_ r
               = Double.div (Math_round (Double.mul (similarity r) 1000)) 10)
         results.
Proof.
  cbv zeta.
  destruct (searchContacts_ranked Sample.co_ranked "alice" (Some 2%nat) None
              (Sample.start Sample.acquainted))
    as (results & Hrun & Hlen & Hsorted & Hall).
  - intros a b. unfold compareTwoStrings, Sample.co_ranked, Sample.similarity_table.
    destruct (a =? b)%string; [split; discriminate |].
    destruct (b =? "alicia")%string; [vm_compute; split; discriminate |].
    destruct (b =? "alina")%string; split; discriminate.
  - exists results. split; [exact Hrun |].
    assert (E : fst (searchContacts Sample.co_ranked "alice" (Some 2%nat) None
                       (Sample.start Sample.acquainted))
                = Return results) by now rewrite Hrun.
    split; [| split; [| split]].
    + vm_compute in E. injection E as <-. reflexivity.
    + vm_compute in E. injection E as <-. repeat constructor.
    + vm_compute in E. injection E as <-. repeat constructor.
    + split; [exact Hlen | split; [exact Hsorted |]].
      eapply Forall_impl; [| exact Hall].
      cbv zeta. intros r (_ & Hthreshold & _ & _ & _ & Hmatch & _). auto.
Defined.

(** C3, as stated, fails on the code: the match percentage is not always
    the similarity times 100 rounded to the nearest tenth. For the contact
    alicia, of similarity 78/160 as a double (just below 0.4875), the
    tenth nearest to the similarity times 100 is 48.7; the double product
    of the similarity by 1000 is 487.5, which [Math.round] takes to 488,
    and the match is 48.8 as a double: it is not the double of the nearest
    tenth (nor of any tenth that is nearest), and it is not a number of
    tenths. *)
Theorem searchContacts_match_not_nearest_tenth :
  let st := Sample.start (with_contacts [Sample.alicia] Sample.fresh) in
  exists r : SearchResult,
    searchContacts Sample.co_ranked "alice" None None st = (Return [r], st)
    /\ contact r = Sample.alicia
    /\ similarity r = Double.div 78 160
    /\ (similarity r < 4875 # 10000)%Q
    /\ nearest_tenth (similarity r * 100) (487 # 10)
    /\ (Double.mul (similarity r) 1000 == 4875 # 10)%Q
    /\ match_ r = Double.div 488 10
    /\ ~ (match_ r == Double.round (487 # 10))%Q
    /\ (forall k : Z,
           nearest_tenth (similarity r * 100) (k # 10) ->
           ~ (match_ r == Double.round (k # 10))%Q)
    /\ ~ nearest_tenth (similarity r * 100) (match_ r).
Proof.
  cbv zeta. eexists. split; [vm_compute; reflexivity |].
  cbn [contact similarity match_].
  split; [reflexivity |].
  split; [vm_compute; reflexivity |].
  split; [vm_compute; reflexivity |].
  split.
  { split; [exists 487%Z; reflexivity |].
    split; [vm_compute; reflexivity | vm_compute; discriminate]. }
  split; [vm_compute; reflexivity |].
  split; [vm_compute; reflexivity |].
  split; [vm_compute; discriminate |].
  split.
  - intros k (_ & Hlow & Hhigh) Hmatch.
    assert (Hk : k = 487%Z).
    { unfold Qlt, Qle in Hlow, Hhigh. cbn in Hlow, Hhigh. lia. }
    subst k. vm_compute in Hmatch. discriminate Hmatch.
  - intros ((k & Hk) & _). unfold Qeq in Hk. cbn in Hk. lia.
Qed.

(** C9, on the code: after the assignment [user.contactIDs = [7]] has
    returned, the contacts of the user are the ones from before (none), the
    resolution is a timer callback that has not run, and it is that
    callback which later stores the contact. *)
Theorem contactIDs_setter_is_detached :
  let st := Sample.start Sample.fresh in
  let assigned := snd (set_contactIDs (Some [7]) st) in
  let fired := snd (run_timer Sample.co (Timer_contactIDs (Some [7])) assigned) in
  fst (set_contactIDs (Some [7]) st) = Return tt
  /\ contacts (this assigned) = []
  /\ fst (contactIDs assigned) = Return []
  /\ timers (env assigned) = [Timer_contactIDs (Some [7])]
  /\ fst (contactIDs fired) = Return [7].
Proof. cbv zeta. repeat split; reflexivity. Qed.

(** *** Runs for the further properties *)

(** A fresh user, and a user who has a number but no code hash. *)
Lemma signInToTelegram_requires_handshake_witness :
  signInToTelegram Sample.co "12345" (Sample.start Sample.fresh)
  = (Throw (new_Error "Phone number not set"), Sample.start Sample.fresh)
  /\ (let u := with_phoneNumber (Some "+15551234") Sample.fresh in
      signInToTelegram Sample.co "12345" (Sample.start u)
      = (Throw (new_Error "Phone code not sent"), Sample.start u)).
Proof.
  split.
  - exact (proj1 (signInToTelegram_requires_handshake Sample.co "12345"
                    (Sample.start Sample.fresh)) eq_refl).
  - exact (proj2 (signInToTelegram_requires_handshake Sample.co "12345"
                    (Sample.start (with_phoneNumber (Some "+15551234") Sample.fresh)))
             eq_refl eq_refl).
Defined.

(** The code is accepted, then offered again. *)
Lemma signInToTelegram_once_witness :
  let st1 := snd (signInToTelegram Sample.co "12345" (Sample.start Sample.code_sent)) in
  signInToTelegram Sample.co "12345" st1
  = (Throw (new_Error "Phone code not sent"), st1).
Proof.
  exact (signInToTelegram_once Sample.co "12345" "12345" (result := "ok")
           (Sample.start Sample.code_sent) eq_refl eq_refl eq_refl).
Defined.

(** The session finds the number invalid. *)
Lemma sendTelegramCode_rejects_phone_witness :
  let st := Sample.start Sample.fresh in
  let st' := snd (sendTelegramCode Sample.co_invalid "12" st) in
  fst (sendTelegramCode Sample.co_invalid "12" st)
  = Throw (new_Error "Invalid phone number.")
  /\ same_profile (this st) (this st')
  /\ trace (env st') = [Call_checkPhone "12"].
Proof.
  exact (sendTelegramCode_rejects_phone Sample.co_invalid "12" (status := "invalid")
           (Sample.start Sample.fresh) eq_refl eq_refl eq_refl).
Defined.

(** A fresh user asks for a code. *)
Lemma sendTelegramCode_stores_handshake_witness :
  let st' := snd (sendTelegramCode Sample.co "+15551234" (Sample.start Sample.fresh)) in
  fst (sendTelegramCode Sample.co "+15551234" (Sample.start Sample.fresh))
  = Return Sample.sent
  /\ phoneNumber (this st') = Some "+15551234"
  /\ phoneCodeHash (this st') = Some "c0de".
Proof.
  pose proof (sendTelegramCode_stores_handshake Sample.co "+15551234"
                (status := "registered") (result := Sample.sent)
                (Sample.start Sample.fresh) eq_refl eq_refl eq_refl eq_refl eq_refl)
    as (H1 & H2 & H3 & _).
  exact (conj H1 (conj H2 H3)).
Defined.

(** The session fails to send the code to a user who had asked before. *)
Lemma sendTelegramCode_failure_frame_witness :
  let st := Sample.start Sample.code_sent in
  let st' := snd (sendTelegramCode Sample.co_flood "+15550000" st) in
  same_profile (this st) (this st')
  /\ trace (env st') = [Call_checkPhone "+15550000"; Call_sendCode "+15550000"].
Proof.
  exact (sendTelegramCode_failure_frame Sample.co_flood "+15550000"
           (status := "registered") (err := Sample.flood)
           (Sample.start Sample.code_sent) eq_refl eq_refl eq_refl eq_refl).
Defined.

(** The code is sent but the database refuses the user. *)
Lemma sendTelegramCode_save_failure_witness :
  let st' := snd (sendTelegramCode Sample.co_disk_full "+15551234"
                    (Sample.start Sample.fresh)) in
  (exists message printable,
      fst (sendTelegramCode Sample.co_disk_full "+15551234" (Sample.start Sample.fresh))
      = Throw (Error message printable)
      /\ (message = "ENOSPC" /\ printable = None))
  /\ phoneNumber (this st') = Some "+15551234"
  /\ phoneCodeHash (this st') = Some "c0de".
Proof.
  exact (sendTelegramCode_save_failure Sample.co_disk_full "+15551234"
           (status := "registered") (result := Sample.sent) (err := Sample.disk_full)
           (Sample.start Sample.fresh) eq_refl eq_refl eq_refl eq_refl eq_refl).
Defined.

(** A fresh user asks for a code and redeems it. *)
Lemma sendTelegramCode_then_signIn_witness :
  let st1 := snd (sendTelegramCode Sample.co "+15551234" (Sample.start Sample.fresh)) in
  let st2 := snd (signInToTelegram Sample.co "12345" st1) in
  exists rest,
    trace (env st2)
    = (trace (env st1) ++ Call_signIn (Some "+15551234") (Some "c0de") "12345" :: rest)%list
    /\ fst (signInToTelegram Sample.co "12345" st1) = Return "ok".
Proof.
  exact (sendTelegramCode_then_signIn Sample.co "+15551234" (status := "registered")
           "12345" (result := Sample.sent) (Sample.start Sample.fresh)
           eq_refl eq_refl eq_refl eq_refl eq_refl eq_refl eq_refl).
Defined.

(** A logged-in user logs out and is written to the database. *)
Lemma logOutFromTelegram_then_toEntry_witness :
  let st1 := snd (logOutFromTelegram Sample.co (Sample.start Sample.logged_in)) in
  exists entry user w',
    toEntry Sample.co st1 = (Return entry, st1)
    /\ data_puppet (entry_data entry) = None
    /\ fromEntry Sample.co entry (env st1) = (Return user, w')
    /\ _telegramPuppet user = None
    /\ puppetData user = None
    /\ authenticated Sample.co user = false
    /\ authenticated Sample.co (this st1) = false.
Proof.
  exact (logOutFromTelegram_then_toEntry Sample.co (Sample.start Sample.logged_in)
           (env (snd (logOutFromTelegram Sample.co (Sample.start Sample.logged_in))))
           eq_refl).
Defined.

(** The session throws when a logged-in user logs out. *)
Lemma logOutFromTelegram_failure_witness :
  let st := Sample.start Sample.logged_in in
  let st' := snd (logOutFromTelegram Sample.co_offline st) in
  fst (logOutFromTelegram Sample.co_offline st) = Throw Sample.offline
  /\ _telegramPuppet (this st') = Some (Some 42)
  /\ same_profile (this st) (this st')
  /\ trace (env st') = [Call_logOut].
Proof.
  exact (logOutFromTelegram_failure Sample.co_offline (err := Sample.offline)
           (Sample.start Sample.logged_in) eq_refl).
Defined.

(** An entry with session data. *)
Lemma fromEntry_restores_witness :
  exists user w',
    fromEntry Sample.co Sample.stored {| trace := []; timers := [] |} = (Return user, w')
    /\ userID user = "@user:example.org"
    /\ puppetData user = Some (Some 42)
    /\ trace w' = [].
Proof.
  destruct (fromEntry_restores Sample.co Sample.stored {| trace := []; timers := [] |}
              eq_refl)
    as (user & w' & Hrun & Hid & _ & _ & _ & Hdata & _ & Htrace).
  exists user, w'. auto.
Defined.

(** The ids 7 and 9 with a registry that has both users, and with one that
    has no user 9. *)
Lemma run_timer_all_or_nothing_witness :
  (let st' := snd (run_timer Sample.co (Timer_contactIDs (Some [7; 9]))
                     (Sample.start Sample.fresh)) in
   this st' = with_contacts [Sample.registry 7; Sample.registry 9] Sample.fresh)
  /\ (let st' := snd (run_timer Sample.co_no_bob (Timer_contactIDs (Some [7; 9]))
                        (Sample.start Sample.with_friends)) in
      this st' = Sample.with_friends).
Proof.
  split.
  - refine (proj2 (proj1 (run_timer_all_or_nothing Sample.co [7; 9]
                            (Sample.start Sample.fresh))
                     [Sample.registry 7; Sample.registry 9] _)).
    repeat constructor.
  - refine (proj2 (proj1 (proj2 (run_timer_all_or_nothing Sample.co_no_bob [7; 9]
                                   (Sample.start Sample.with_friends)))
                     _)).
    exists 9, (new_Error "no such user"). split; [cbn; auto | reflexivity].
Defined.

(** The user with the contacts 7 and 9 goes through the database. *)
Lemma contactIDs_round_trip_witness :
  exists entry user w',
    fst (toEntry Sample.co (Sample.start Sample.with_friends)) = Return entry
    /\ fromEntry Sample.co entry {| trace := []; timers := [] |} = (Return user, w')
    /\ timers w' = [Timer_contactIDs (Some [7; 9])]
    /\ fst (contactIDs {| this := user; env := w' |}) = Return []
    /\ fst (contactIDs
              (snd (run_timer Sample.co (Timer_contactIDs (Some [7; 9]))
                      {| this := user; env := w' |})))
       = Return [7; 9].
Proof.
  refine (contactIDs_round_trip Sample.co (Sample.start Sample.with_friends)
            {| trace := []; timers := [] |} _).
  intros i Hi. exists (Sample.registry i). split; reflexivity.
Defined.

(** The registry has no user 9 when the contacts 7 and 9 of a user are
    synchronised: the run fails after the contact 7 was refreshed, and the
    user keeps the contacts it had. *)
Lemma syncContacts_no_partial_commit_witness :
  let st := Sample.start Sample.with_friends in
  let st' := snd (syncContacts Sample.co_no_bob st) in
  (fst (syncContacts Sample.co_no_bob st) = Throw (new_Error "no such user")
   /\ same_profile (this st) (this st')
   /\ persisted (trace (env st')) = persisted (trace (env st)))
  /\ contacts (this st') = [Sample.alice; Sample.bob]
  /\ trace (env st')
     = [Call_client "contacts.getContacts" (Some "7,9");
        Call_getTelegramUser 7;
        Call_TelegramUser_updateInfo (Sample.registry 7) Sample.remote_alice true;
        Call_getTelegramUser 9].
Proof.
  cbv zeta. split; [| split; reflexivity].
  refine (proj2 (proj2 (syncContacts_no_partial_commit Sample.co_no_bob
                          (Sample.start Sample.with_friends)))
            Sample.two_contacts [Sample.remote_alice] [] Sample.remote_bob
            [Sample.alice] (new_Error "no such user")
            eq_refl eq_refl eq_refl _ (or_introl eq_refl)).
  econstructor; [reflexivity | reflexivity | constructor].
Defined.

(** Three conversations: one unchanged, one forbidden, one changed. *)
Lemma syncDialogs_changed_flag_witness :
  fst (syncDialogs Sample.co None (Sample.start Sample.fresh)) = Return true.
Proof.
  refine (syncDialogs_changed_flag (co := Sample.co) None
            (dialogs := Sample.three_dialogs) (Sample.start Sample.fresh) eq_refl _
            (fun _ _ _ _ => eq_refl)).
  intros dialog _ _. eexists. eexists. split; reflexivity.
Defined.

(** The portal of the third conversation cannot be found. *)
Lemma syncDialogs_update_failure_aborts_witness :
  let st := Sample.start Sample.fresh in
  let st' := snd (syncDialogs Sample.co_no_portal None st) in
  fst (syncDialogs Sample.co_no_portal None st) = Throw (new_Error "no such portal")
  /\ exists calls,
      trace (env st')
      = (trace (env st) ++ calls
         ++ [Call_getPortalByPeer (peer_of (Sample.chat "channel" 4 false))])%list.
Proof.
  refine (proj1 (syncDialogs_update_failure_aborts (co := Sample.co_no_portal) None
                   (dialogs := Sample.three_dialogs)
                   [Sample.chat "chat" 1 false; Sample.chat "chatForbidden" 2 false]
                   [] (Sample.chat "channel" 4 false)
                   (Sample.start Sample.fresh) eq_refl eq_refl _
                   (fun _ _ _ _ => eq_refl) eq_refl)
            (new_Error "no such portal") eq_refl).
  intros d [<- | [<- | []]] Hskip; [| discriminate Hskip].
  eexists. eexists. split; reflexivity.
Defined.

(** The three conversations without and with room creations. *)
Lemma syncDialogs_createRooms_witness :
  let st := Sample.start Sample.fresh in
  let quiet := syncDialogs Sample.co (Some false) st in
  let full := syncDialogs Sample.co (Some true) st in
  let first := Sample.chat "chat" 1 false in
  let last := Sample.chat "channel" 4 false in
  (fst quiet = fst full
   /\ this (snd quiet) = this (snd full)
   /\ without_rooms (trace (env (snd quiet))) = without_rooms (trace (env (snd full))))
  /\ fst quiet = Return true
  /\ trace (env (snd quiet))
     = [Call_client "messages.getDialogs" None;
        Call_getPortalByPeer (peer_of first);
        Call_Portal_updateInfo (peer_of first) first;
        Call_getPortalByPeer (peer_of last);
        Call_Portal_updateInfo (peer_of last) last].
Proof.
  cbv zeta. split; [| split; reflexivity].
  exact (proj2 (proj2 (syncDialogs_createRooms Sample.co (Sample.start Sample.fresh)))
           (fun _ _ _ => eq_refl)).
Defined.

(** With room creations that reject with [undefined], the run without room
    creations returns and the run with them fails. *)
Example syncDialogs_createRooms_undefined :
  let st := Sample.start Sample.fresh in
  let co := with_createMatrixRoom Sample.lost_rooms Sample.co in
  fst (syncDialogs co (Some false) st) = Return true
  /\ fst (syncDialogs co (Some true) st)
     = Throw (TypeError_reading Undefined "stack").
Proof. cbv zeta. split; reflexivity. Qed.

(** A contact of which the id alone is known. *)
Lemma searchContacts_no_profile_witness :
  contact_similarity Sample.co "alice" (Sample.registry 5) = 0%Q
  /\ exists results,
      fst (searchContacts Sample.co "alice" None None
             (Sample.start (with_contacts [Sample.registry 5; Sample.alice] Sample.fresh)))
      = Return results
      /\ forall r, In r results -> contact r <> Sample.registry 5.
Proof.
  exact (searchContacts_no_profile Sample.co "alice" None None
           (Sample.start (with_contacts [Sample.registry 5; Sample.alice] Sample.fresh))
           (Sample.registry 5) eq_refl eq_refl).
Defined.

(** The password check accepts one hash and rejects another. *)
Example checkPassword_runs :
  let st := Sample.start Sample.logged_in in
  fst (checkPassword Sample.co Sample.password "s3cret" st) = Return true
  /\ persisted (trace (env (snd (checkPassword Sample.co Sample.password "s3cret" st))))
     = [Call_putUser Sample.logged_in]
  /\ fst (checkPassword Sample.co Sample.password "guess" st)
     = Throw (new_Error "PASSWORD_HASH_INVALID")
  /\ trace (env (snd (checkPassword Sample.co Sample.password "guess" st))) = [].
Proof. cbv zeta. repeat split. Qed.
